(** * License manager: expiry classification, status transitions,
    CSV import/export and the expiry notification sweep.

  A shallow embedding of the TypeScript sources.  Conventions:

  - JavaScript strings are Rocq strings (ASCII range only).
  - An instant ([Date.getTime()]) is a [Z] number of milliseconds since
    the epoch.  A value of a Postgres [DATE] column is a [Z] number of
    days since 1970-01-01: it reaches JavaScript as the text YYYY-MM-DD,
    which [new Date] reads as UTC midnight of that day.
  - JavaScript numbers are exact ([number]); binary rounding is outside
    the model.
  - The managed backend is a [Database] value; every call to it can fail,
    the failure being chosen by an environment record.  Row-level
    security, generated timestamps and the ids of payment rows are not
    represented. *)

From Stdlib Require Import ZArith Lia Ascii.
From stdpp Require Import base option list strings gmap stringmap pretty sorting.

Local Open Scope Z_scope.

(** ** JavaScript built-ins used by the sources *)

Module JS.

Definition dquote : string := String (Ascii.ascii_of_nat 34) EmptyString.
Definition newline : Ascii.ascii := Ascii.ascii_of_nat 10.
Definition comma : Ascii.ascii := Ascii.ascii_of_nat 44.

(** [x || ''] and [!x] on a value of type [string | null | undefined]. *)
Definition truthy (o : option string) : bool :=
  match o with
  | Some (String _ _) => true
  | _ => false
  end.

Definition or_empty (o : option string) : string :=
  match o with
  | Some s => s
  | None => EmptyString
  end.

(** [x || null] on a string. *)
Definition or_null (s : string) : option string :=
  match s with
  | EmptyString => None
  | String _ _ => Some s
  end.

(** *** Numbers *)

Inductive number :=
| NaN
| Infinity (negative : bool)
| Finite (mantissa : Z) (exp10 : Z).   (* mantissa * 10^exp10 *)

Definition isNaN (n : number) : bool :=
  match n with
  | NaN => true
  | _ => false
  end.

(** [Math.ceil(a / b)] for integral [a] and positive [b]. *)
Definition Math_ceil_div (a b : Z) : Z := - ((- a) / b).

(** *** Strings *)

(** The ASCII members of WhiteSpace and LineTerminator. *)
Definition is_whitespace (c : Ascii.ascii) : bool :=
  let n := Ascii.nat_of_ascii c in
  ((9 <=? n) && (n <=? 13) || (n =? 32))%nat.

Fixpoint trimStart (s : string) : string :=
  match s with
  | String c r => if is_whitespace c then trimStart r else s
  | EmptyString => EmptyString
  end.

Fixpoint trimEnd (s : string) : string :=
  match s with
  | EmptyString => EmptyString
  | String c r =>
      match trimEnd r with
      | EmptyString => if is_whitespace c then EmptyString else String c EmptyString
      | r' => String c r'
      end
  end.

(** [s.trim()] *)
Definition trim (s : string) : string := trimEnd (trimStart s).

(** [s.split(sep)] for a one-character separator: never the empty list. *)
Fixpoint split (sep : Ascii.ascii) (s : string) : list string :=
  match s with
  | EmptyString => [EmptyString]
  | String c r =>
      if Ascii.eqb c sep then EmptyString :: split sep r
      else match split sep r with
           | h :: t => String c h :: t
           | [] => [String c EmptyString]
           end
  end.

(** [xs.join(sep)] *)
Definition join (sep : string) (xs : list string) : string := String.concat sep xs.

Definition drop_last_dquote (s : string) : string :=
  match String.length s with
  | S n =>
      if bool_decide (String.get n s = Some (Ascii.ascii_of_nat 34))
      then String.substring 0 n s else s
  | O => s
  end.

(** [s.replace(/^"|"$/g, '')] *)
Definition strip_quotes (s : string) : string :=
  drop_last_dquote
    match s with
    | String c r => if Ascii.eqb c (Ascii.ascii_of_nat 34) then r else s
    | EmptyString => s
    end.

Definition lower (c : Ascii.ascii) : Ascii.ascii :=
  let n := Ascii.nat_of_ascii c in
  if ((65 <=? n) && (n <=? 90))%nat then Ascii.ascii_of_nat (n + 32) else c.

(** [s.toLowerCase()] *)
Fixpoint toLowerCase (s : string) : string :=
  match s with
  | EmptyString => EmptyString
  | String c r => String (lower c) (toLowerCase r)
  end.

(** *** parseFloat *)

Definition digit_of (c : Ascii.ascii) : option Z :=
  let n := Ascii.nat_of_ascii c in
  if ((48 <=? n) && (n <=? 57))%nat then Some (Z.of_nat n - 48) else None.

(** The decimal digits [s] starts with, and what follows them. *)
Fixpoint leading_digits (s : string) : list Z * string :=
  match s with
  | EmptyString => ([], EmptyString)
  | String c r =>
      match digit_of c with
      | Some d => let '(ds, rest) := leading_digits r in (d :: ds, rest)
      | None => ([], s)
      end
  end.

Definition digits_value (ds : list Z) : Z :=
  fold_left (fun acc d => 10 * acc + d) ds 0.

Definition strip_sign (s : string) : bool * string :=
  match s with
  | String "-"%char r => (true, r)
  | String "+"%char r => (false, r)
  | _ => (false, s)
  end.

(** Value of an optional ExponentPart at the head of [s]. *)
Definition exponent_part (s : string) : Z :=
  match s with
  | String c r =>
      if Ascii.eqb c "e"%char || Ascii.eqb c "E"%char then
        let '(neg, r1) := strip_sign r in
        match leading_digits r1 with
        | ([], _) => 0
        | (ds, _) => if neg then - digits_value ds else digits_value ds
        end
      else 0
  | EmptyString => 0
  end.

(** The longest prefix that is a StrUnsignedDecimalLiteral. *)
Definition unsigned_literal (neg : bool) (s : string) : number :=
  if String.prefix "Infinity" s then Infinity neg
  else
    let sign := if neg then -1 else 1 in
    let '(ip, r) := leading_digits s in
    match r with
    | String "."%char r' =>
        let '(fp, r2) := leading_digits r' in
        match ip, fp with
        | [], [] => NaN
        | _, _ =>
            Finite (sign * digits_value (ip ++ fp))
                   (exponent_part r2 - Z.of_nat (length fp))
        end
    | _ =>
        match ip with
        | [] => NaN
        | _ => Finite (sign * digits_value ip) (exponent_part r)
        end
    end.

Definition parseFloat (s : string) : number :=
  let '(neg, r) := strip_sign (trimStart s) in
  unsigned_literal neg r.

(** *** Dates *)

Definition msPerDay : Z := 1000 * 60 * 60 * 24.

(** [new Date(s).getTime()] for the text [s] of a DATE column. *)
Definition Date_of_DATE (d : Z) : Z := d * msPerDay.

(** [new Date(ms).toISOString().split('T')[0]], as a calendar day. *)
Definition toISODate (ms : Z) : Z := ms / msPerDay.

(** Days since the epoch to proleptic Gregorian (year, month, day). *)
Definition civil_from_days (z : Z) : Z * Z * Z :=
  let z := z + 719468 in
  let era := z / 146097 in
  let doe := z - era * 146097 in
  let yoe := (doe - doe / 1460 + doe / 36524 - doe / 146096) / 365 in
  let doy := doe - (365 * yoe + yoe / 4 - yoe / 100) in
  let mp := (5 * doy + 2) / 153 in
  let d := doy - (153 * mp + 2) / 5 + 1 in
  let m := if mp <? 10 then mp + 3 else mp - 9 in
  let y := yoe + era * 400 in
  (if m <=? 2 then y + 1 else y, m, d).

Fixpoint zeros (n : nat) : string :=
  match n with
  | O => EmptyString
  | S n' => String "0"%char (zeros n')
  end.

(** Decimal digits of [|n|], left-padded with zeros to [width]. *)
Definition pad (width : nat) (n : Z) : string :=
  let digits := pretty (Z.abs n) in
  zeros (width - String.length digits) +:+ digits.

(** The date part of [toISOString()], which is also the text of a DATE. *)
Definition date_toString (day : Z) : string :=
  let '(y, m, d) := civil_from_days day in
  let year :=
    if (0 <=? y) && (y <=? 9999) then pad 4 y
    else (if y <? 0 then "-" else "+") +:+ pad 6 y in
  year +:+ "-" +:+ pad 2 m +:+ "-" +:+ pad 2 d.

Fixpoint strip_trailing_zeros (s : string) : string :=
  match s with
  | EmptyString => EmptyString
  | String c r =>
      match strip_trailing_zeros r with
      | EmptyString => if Ascii.eqb c "0"%char then EmptyString else String c EmptyString
      | r' => String c r'
      end
  end.

(** Number::toString, radix 10, on exact decimals. *)
Definition Number_toString (x : number) : string :=
  match x with
  | NaN => "NaN"
  | Infinity neg => if neg then "-Infinity" else "Infinity"
  | Finite m e =>
      if m =? 0 then "0"
      else
        let all := pretty (Z.abs m) in
        let digits := strip_trailing_zeros all in
        let k := Z.of_nat (String.length digits) in
        let n := Z.of_nat (String.length all) + e in
        let sign := if m <? 0 then "-" else EmptyString in
        sign +:+
        (if (k <=? n) && (n <=? 21) then digits +:+ zeros (Z.to_nat (n - k))
         else if (0 <? n) && (n <=? 21) then
           String.substring 0 (Z.to_nat n) digits +:+ "." +:+
           String.substring (Z.to_nat n) (Z.to_nat (k - n)) digits
         else if (-6 <? n) && (n <=? 0) then "0." +:+ zeros (Z.to_nat (- n)) +:+ digits
         else
           let exponent := (if n - 1 <? 0 then "-" else "+") +:+ pretty (Z.abs (n - 1)) in
           if k =? 1 then digits +:+ "e" +:+ exponent
           else String.substring 0 1 digits +:+ "." +:+
                String.substring 1 (Z.to_nat (k - 1)) digits +:+ "e" +:+ exponent)
  end.

End JS.

(** ** The data store *)

Module License.
Record t := mk {
  product_name : string;
  vendor_name : string;
  category : string;
  category_id : option string;
  location_id : option string;
  amount : JS.number;
  billing_cycle : string;
  status : option string;
  start_date : Z;
  expiry_date : Z;
  last_renewal_date : option Z;
  login_link : option string;
  password : option string;
  notes : option string;
  notification_email : option string;
  notification_phone : option string;
  payment_status : bool;
  created_by : string;
  user_id : option string;
}.

(** The payload of [.update({...})]: absent keys leave the column alone. *)
Record update := mkUpdate {
  set_status : option string;
  set_payment_status : option bool;
}.

Definition apply (u : update) (l : t) : t :=
  {| product_name := product_name l;
     vendor_name := vendor_name l;
     category := category l;
     category_id := category_id l;
     location_id := location_id l;
     amount := amount l;
     billing_cycle := billing_cycle l;
     status := match set_status u with Some s => Some s | None => status l end;
     start_date := start_date l;
     expiry_date := expiry_date l;
     last_renewal_date := last_renewal_date l;
     login_link := login_link l;
     password := password l;
     notes := notes l;
     notification_email := notification_email l;
     notification_phone := notification_phone l;
     payment_status :=
       match set_payment_status u with Some b => b | None => payment_status l end;
     created_by := created_by l;
     user_id := user_id l |}.
End License.

Module Payment.
Record t := mk {
  license_id : string;
  amount : JS.number;
  payment_date : Z;
  payment_method : option string;
  transaction_id : option string;
  notes : option string;
  created_by : string;
}.
End Payment.

(** The tables the sources touch.  The preferences (an [email_enabled]
    flag and the day offsets, per user) are stored; the sweep does not
    read them. *)
Record Database := mkDatabase {
  licenses : gmap string License.t;          (* keyed by the primary key [id] *)
  payment_history : list Payment.t;          (* in insertion order *)
  notification_preferences : gmap string (bool * list Z);
}.

(** What the browser-side code gets from its surroundings. *)
Record Env := mkEnv {
  now : Z;                                   (* [new Date().getTime()] *)
  auth_user : option string;                 (* id of the signed-in user *)
  licenses_update_error : option string;     (* error of [licenses.update] *)
  licenses_select_error : option string;     (* error of [licenses.select] *)
  licenses_insert_error : option string;     (* error of [licenses.insert] *)
  payment_insert_error : option string;      (* error of [payment_history.insert] *)
}.

Module Supabase.

(** [from('licenses').update(u).eq('id', id)]: returns [error]. *)
Definition licenses_update (env : Env) (u : License.update) (id : string)
    (db : Database) : Database * option string :=
  match licenses_update_error env with
  | Some e => (db, Some e)
  | None =>
      (mkDatabase (alter (License.apply u) id (licenses db))
                  (payment_history db) (notification_preferences db), None)
  end.

(** [from('licenses').select('amount').eq('id', id).single()]: returns
    [data], which is null on an error and when no row matches. *)
Definition licenses_select_amount (env : Env) (id : string) (db : Database)
    : option JS.number :=
  match licenses_select_error env with
  | Some _ => None
  | None => License.amount <$> licenses db !! id
  end.

(** [from('payment_history').insert(p)]: returns [error]. *)
Definition payment_history_insert (env : Env) (p : Payment.t) (db : Database)
    : Database * option string :=
  match payment_insert_error env with
  | Some e => (db, Some e)
  | None =>
      (mkDatabase (licenses db) (payment_history db ++ [p])
                  (notification_preferences db), None)
  end.

End Supabase.

Record Toast := mkToast {
  title : string;
  description : string;
  variant : option string;
}.

(** The reference tables, as [types/license.ts] declares their rows. *)
Module Category.
Record t := mk { id : string; name : string }.
End Category.

Module Location.
Record t := mk { id : string; name : string }.
End Location.

(** What a handler of the user interface leaves behind.  The state of the
    components that only drives the display ([updating], [open],
    [loading], the refresh callbacks) is not represented. *)
Record outcome := mkOutcome {
  db_after : Database;
  toast : option Toast;
  console_warn : list string;
}.

(** ** PaymentStatusBadge.tsx *)

Module PaymentStatusBadge.

Definition auto_note : string :=
  "Payment recorded automatically when status updated to Paid".

(** [updateData], built before the call. *)
Definition updateData (newStatus : string) : License.update :=
  {| License.set_status := Some newStatus;
     License.set_payment_status :=
       if bool_decide (newStatus = "Paid") || bool_decide (newStatus = "Confirmed")
       then Some true
       else if bool_decide (newStatus = "Expired")
               || bool_decide (newStatus = "Cancelled")
       then Some false
       else None |}.

Definition becomes_paid (currentStatus : option string) (newStatus : string) : bool :=
  bool_decide (newStatus = "Paid") && negb (bool_decide (currentStatus = Some "Paid")).

Definition updateStatus (env : Env) (licenseId : string)
    (currentStatus : option string) (newStatus : string) (db : Database) : outcome :=
  let '(db1, licenseError) :=
    Supabase.licenses_update env (updateData newStatus) licenseId db in
  match licenseError with
  | Some e => mkOutcome db1 (Some (mkToast "Error" e (Some "destructive"))) []
  | None =>
      let '(db2, warnings) :=
        if becomes_paid currentStatus newStatus then
          match Supabase.licenses_select_amount env licenseId db1 with
          | Some amount =>
              let '(db2, paymentError) :=
                Supabase.payment_history_insert env
                  {| Payment.license_id := licenseId;
                     Payment.amount := amount;
                     Payment.payment_date := JS.toISODate (now env);
                     Payment.payment_method := None;
                     Payment.transaction_id := None;
                     Payment.notes := Some auto_note;
                     Payment.created_by := JS.or_empty (auth_user env) |}
                  db1 in
              (db2,
               match paymentError with
               | Some e => ["Failed to create payment history: " +:+ e]
               | None => []
               end)
          | None => (db1, [])
          end
        else (db1, []) in
      mkOutcome db2
        (Some (mkToast "Success"
                 (if becomes_paid currentStatus newStatus
                  then "Status updated and payment history created!"
                  else "Status updated successfully!")
                 None))
        warnings
  end.

(** The update button is disabled while [newStatus === currentStatus]. *)
Definition update_disabled (updating : bool) (currentStatus : option string)
    (newStatus : string) : bool :=
  updating || bool_decide (Some newStatus = currentStatus).

End PaymentStatusBadge.


(** ** PaymentHistoryDialog *)

Module PaymentHistoryDialog.

(** The [newPayment] form state. *)
Record newPayment := mkNewPayment {
  amount : string;
  payment_date : option Z;          (* the picked [Date], as an instant *)
  payment_method : string;
  transaction_id : string;
  notes : string;
}.

Definition paid_update : License.update :=
  {| License.set_status := Some "Paid"; License.set_payment_status := Some true |}.

Definition addPayment (env : Env) (user : option string) (licenseId : string)
    (form : newPayment) (db : Database) : outcome :=
  match user, amount form, payment_date form with
  | Some user_id, String _ _, Some picked =>
      let '(db1, error) :=
        Supabase.payment_history_insert env
          {| Payment.license_id := licenseId;
             Payment.amount := JS.parseFloat (amount form);
             Payment.payment_date := JS.toISODate picked;
             Payment.payment_method := JS.or_null (payment_method form);
             Payment.transaction_id := JS.or_null (transaction_id form);
             Payment.notes := JS.or_null (notes form);
             Payment.created_by := user_id |}
          db in
      match error with
      | Some e => mkOutcome db1 (Some (mkToast "Error" e (Some "destructive"))) []
      | None =>
          (* the result of this call is not inspected *)
          let '(db2, _) := Supabase.licenses_update env paid_update licenseId db1 in
          mkOutcome db2
            (Some (mkToast "Success" "Payment record added successfully!" None)) []
      end
  | _, _, _ => mkOutcome db None []
  end.

End PaymentHistoryDialog.

(** ** LicenseTable.tsx *)

Module LicenseTable.

Record ExpiryStatus := mkExpiryStatus {
  status : string;
  variant : string;
  text : string;
}.

Definition daysUntilExpiry (now expiryDate : Z) : Z :=
  JS.Math_ceil_div (JS.Date_of_DATE expiryDate - now) JS.msPerDay.

Definition getExpiryStatus (now expiryDate : Z) : ExpiryStatus :=
  let daysUntilExpiry := daysUntilExpiry now expiryDate in
  if daysUntilExpiry <? 0 then
    mkExpiryStatus "expired" "destructive" "Expired"
  else if daysUntilExpiry <=? 7 then
    mkExpiryStatus "critical" "destructive" (pretty daysUntilExpiry +:+ " days")
  else if daysUntilExpiry <=? 30 then
    mkExpiryStatus "warning" "default" (pretty daysUntilExpiry +:+ " days")
  else
    mkExpiryStatus "active" "secondary" (pretty daysUntilExpiry +:+ " days").

(** A row of the table: the license and its joined [locations] object. *)
Definition row : Type := License.t * option Location.t.

Inductive field :=
| Str (s : string)
| Num (n : JS.number).

(** [`${field}`] *)
Definition ToString (f : field) : string :=
  match f with
  | Str s => s
  | Num n => JS.Number_toString n
  end.

Definition headers : list string :=
  [ "Product Name"; "Vendor"; "Category"; "Branch Name"; "Amount";
    "Billing Cycle"; "Start Date"; "Expiry Date"; "Last Renewal Date";
    "Status"; "Payment Status"; "Notes" ].

Definition csvData (r : row) : list field :=
  let license := r.1 in
  [ Str (License.product_name license);
    Str (License.vendor_name license);
    Str (License.category license);
    Str (JS.or_empty (Location.name <$> r.2));
    Num (License.amount license);
    Str (License.billing_cycle license);
    Str (JS.date_toString (License.start_date license));
    Str (JS.date_toString (License.expiry_date license));
    Str (JS.or_empty (JS.date_toString <$> License.last_renewal_date license));
    Str (JS.or_empty (License.status license));
    Str (if License.payment_status license then "Paid" else "Unpaid");
    Str (JS.or_empty (License.notes license)) ].

Definition quoted (f : field) : string := JS.dquote +:+ ToString f +:+ JS.dquote.

Definition csvContent (licenses : list row) : string :=
  JS.join (String JS.newline EmptyString)
    (map (fun r => JS.join "," (map quoted r))
         (map Str headers :: map csvData licenses)).

(** The [download] attribute of the link. *)
Definition download (now : Z) : string :=
  "licenses_" +:+ JS.date_toString (JS.toISODate now) +:+ ".csv".

Record export := mkExport {
  file_name : string;
  file_content : string;
  file_type : string;
  export_toast : Toast;
}.

Definition exportToCSV (now : Z) (licenses : list row) : export :=
  mkExport (download now) (csvContent licenses) "text/csv;charset=utf-8;"
           (mkToast "Success" "Licenses exported successfully" None).

End LicenseTable.

(** ** ImportLicenseDialog *)

Module ImportLicenseDialog.

(** A parsed line: a JavaScript object keyed by the header names. *)
Abbreviation CSVLicenseRow := (gmap string string).

(** The assignment [row[header] = value] of a text to an object made by
    [{}]: it makes or replaces the own property [header], but for the name
    [__proto__], which is an accessor of [Object.prototype] whose setter
    does nothing with a value that is not an object, so that the row gets
    no property by it. *)
Definition assign (header value : string) (row : CSVLicenseRow) : CSVLicenseRow :=
  if decide (header = "__proto__") then row else <[header := value]> row.

Definition parseCSV (text : string) : list CSVLicenseRow :=
  let lines := JS.split JS.newline (JS.trim text) in
  let headers := map JS.trim (JS.split JS.comma (hd EmptyString lines)) in
  map (fun line =>
         let values :=
           map (fun v => JS.strip_quotes (JS.trim v)) (JS.split JS.comma line) in
         foldl (fun (row : CSVLicenseRow) (ih : nat * string) =>
                  assign ih.2 (JS.or_empty (values !! ih.1)) row)
               (∅ : CSVLicenseRow) (imap pair headers))
      (tl lines).

(** The number shown in a message about the row at [index]. *)
Definition display_row (index : nat) : nat := index + 2.

Definition message (index : nat) (what : string) : string :=
  "Row " +:+ pretty (display_row index) +:+ ": " +:+ what.

Definition when (b : bool) (msg : string) : list string := if b then [msg] else [].

(** What the insertion sends for one row. *)
Record LicenseInsert := mkLicenseInsert {
  product_name : string;
  vendor_name : string;
  category : string;
  category_id : option string;
  location_id : option string;
  amount : JS.number;
  billing_cycle : string;
  status : string;
  start_date : string;
  expiry_date : string;
  last_renewal_date : option string;
  login_link : option string;
  password : option string;
  notes : option string;
  notification_email : option string;
  notification_phone : option string;
  created_by : string;
  user_id : string;
}.

Record import_outcome := mkImport {
  db_after : Database;
  errors : list string;             (* the [errors] state of the dialog *)
  toast : option Toast;
}.

Section Engine.

(** [Date.parse], whose grammar beyond the ISO forms is left to the
    JavaScript engine ([None] is NaN), and the text input of the DATE
    type of the store ([None] is a rejected text). *)
Variable Date_parse : string -> option Z.
Variable DATE_in : string -> option Z.

Definition validateRow (row : CSVLicenseRow) (index : nat) : list string :=
  let field (name : string) := row !! name in
  let bad_date (o : option string) :=
    JS.truthy o && bool_decide (Date_parse (JS.or_empty o) = None) in
  when (negb (JS.truthy (field "product_name")))
       (message index "Product name is required")
  ++ when (negb (JS.truthy (field "vendor_name")))
       (message index "Vendor name is required")
  ++ when (negb (JS.truthy (field "category")))
       (message index "Category is required")
  ++ when (negb (JS.truthy (field "amount"))
           || JS.isNaN (JS.parseFloat (JS.or_empty (field "amount"))))
       (message index "Valid amount is required")
  ++ when (negb (JS.truthy (field "billing_cycle")))
       (message index "Billing cycle is required")
  ++ when (negb (JS.truthy (field "status")))
       (message index "Status is required")
  ++ when (negb (JS.truthy (field "start_date")))
       (message index "Start date is required")
  ++ when (negb (JS.truthy (field "expiry_date")))
       (message index "Expiry date is required")
  ++ when (bad_date (field "start_date"))
       (message index "Invalid start date format")
  ++ when (bad_date (field "expiry_date"))
       (message index "Invalid expiry date format")
  ++ when (bad_date (field "last_renewal_date"))
       (message index "Invalid last renewal date format").

(** [rows.forEach((row, index) => allErrors.push(...validateRow(row, index)))] *)
Definition allErrors (rows : list CSVLicenseRow) : list string :=
  foldl (fun acc (ir : nat * CSVLicenseRow) => acc ++ validateRow ir.2 ir.1)
        [] (imap pair rows).

Definition licenseToInsert (categories : list Category.t) (locations : list Location.t)
    (user_id : string) (row : CSVLicenseRow) : LicenseInsert :=
  let field (name : string) := JS.or_empty (row !! name) in
  let categoryMatch :=
    List.find (fun cat => bool_decide (JS.toLowerCase (Category.name cat)
                                       = JS.toLowerCase (field "category")))
              categories in
  let locationId := Location.id <$> head locations in
  {| product_name := field "product_name";
     vendor_name := field "vendor_name";
     category := field "category";
     category_id := categoryMatch ≫= (fun cat => JS.or_null (Category.id cat));
     location_id := locationId;
     amount := JS.parseFloat (field "amount");
     billing_cycle := field "billing_cycle";
     status := field "status";
     start_date := field "start_date";
     expiry_date := field "expiry_date";
     last_renewal_date := JS.or_null (field "last_renewal_date");
     login_link := JS.or_null (field "login_link");
     password := JS.or_null (field "password");
     notes := JS.or_null (field "notes");
     notification_email := JS.or_null (field "notification_email");
     notification_phone := JS.or_null (field "notification_phone");
     created_by := user_id;
     user_id := user_id |}.

(** The row the store makes of a payload: the dates are read by the DATE
    type, [payment_status] takes its default. *)
Definition stored (p : LicenseInsert) : option License.t :=
  start ← DATE_in (start_date p);
  expiry ← DATE_in (expiry_date p);
  renewal ← match last_renewal_date p with
            | Some d => Some <$> DATE_in d
            | None => Some None
            end;
  Some {| License.product_name := product_name p;
          License.vendor_name := vendor_name p;
          License.category := category p;
          License.category_id := category_id p;
          License.location_id := location_id p;
          License.amount := amount p;
          License.billing_cycle := billing_cycle p;
          License.status := Some (status p);
          License.start_date := start;
          License.expiry_date := expiry;
          License.last_renewal_date := renewal;
          License.login_link := login_link p;
          License.password := password p;
          License.notes := notes p;
          License.notification_email := notification_email p;
          License.notification_phone := notification_phone p;
          License.payment_status := false;
          License.created_by := created_by p;
          License.user_id := Some (user_id p) |}.

(** [from('licenses').insert(rows)]: one statement, so all rows or none.
    Each new row gets an id that is not in use. *)
Definition licenses_insert (env : Env) (rows : list LicenseInsert) (db : Database)
    : Database * option string :=
  match licenses_insert_error env with
  | Some e => (db, Some e)
  | None =>
      match mapM stored rows with
      | None => (db, Some "invalid input syntax for type date")
      | Some news =>
          (mkDatabase
             (foldl (fun (table : gmap string License.t) l =>
                       <[fresh_string "license" table := l]> table)
                    (licenses db) news)
             (payment_history db) (notification_preferences db), None)
      end
  end.

Definition handleImport (env : Env) (file : option string) (user : option string)
    (categories : list Category.t) (locations : list Location.t)
    (errors0 : list string) (db : Database) : import_outcome :=
  match file, user with
  | Some text, Some user_id =>
      let rows := parseCSV text in
      let allErrors := allErrors rows in
      match allErrors with
      | _ :: _ => mkImport db allErrors None
      | [] =>
          let licensesToInsert :=
            map (licenseToInsert categories locations user_id) rows in
          let '(db1, error) := licenses_insert env licensesToInsert db in
          match error with
          | Some e => mkImport db1 [] (Some (mkToast "Error" e (Some "destructive")))
          | None =>
              mkImport db1 []
                (Some (mkToast "Success"
                         ("Successfully imported " +:+ pretty (length rows)
                          +:+ " license(s)!") None))
          end
      end
  | _, _ => mkImport db errors0 None
  end.

End Engine.

End ImportLicenseDialog.

(** ** The check-license-expiry edge function *)

Module CheckLicenseExpiry.

Record EmailRequest := mkEmail {
  from : string;
  to : list string;
  subject : string;
  html : string;
}.

(** How [resend.emails.send] ends: it returns a response, whose
    [data?.id] may be undefined, or it throws an error with a message. *)
Inductive SendOutcome :=
| Returned (data_id : option string)
| Threw (message : string).

(** What the function gets from its surroundings.  The provider is the
    list of requests it has received so far, and it decides the outcome
    of a request from that list and the request. *)
Record Env := mkEnv {
  now : Z;                                   (* [today.getTime()] *)
  query_error : option string;               (* error of the license query *)
  resend : list EmailRequest -> EmailRequest -> SendOutcome;
}.

Record Notification := mkNotification {
  license_id : string;
  email : option string;
  days_until_expiry : Z;
  urgency : string;
  status : string;
  email_id : option string;
  error : option string;
}.

Inductive Body :=
| Null
| Summary (success : bool) (checked_licenses notifications_sent
           notifications_failed : nat) (details : list Notification)
| Failure (error : string) (success : bool).

Record Response := mkResponse {
  body : Body;
  http_status : Z;
  headers : list (string * string);
}.

Definition corsHeaders : list (string * string) :=
  [ ("Access-Control-Allow-Origin", "*");
    ("Access-Control-Allow-Headers",
     "authorization, x-client-info, apikey, content-type") ].

(** The filters of the query: [gte] and [lte] on [expiry_date], and
    [notification_email] not null. *)
Definition selected (today in30Days : Z) (license : License.t) : Prop :=
  JS.toISODate today <= License.expiry_date license
  /\ License.expiry_date license <= JS.toISODate in30Days
  /\ is_Some (License.notification_email license).

#[export] Instance selected_dec today in30Days license :
  Decision (selected today in30Days license).
Proof. unfold selected. apply _. Defined.

(** [from('licenses').select('*')...]: returns [(data, error)]. *)
Definition query (env : Env) (today in30Days : Z) (db : Database)
    : option (list (string * License.t)) * option string :=
  match query_error env with
  | Some e => (None, Some e)
  | None =>
      (Some (filter (fun r => selected today in30Days r.2)
                    (map_to_list (licenses db))), None)
  end.

Definition daysUntilExpiry (today : Z) (license : License.t) : Z :=
  JS.Math_ceil_div (JS.Date_of_DATE (License.expiry_date license) - today)
                   JS.msPerDay.

(** The ladder of the loop body: [(shouldNotify, urgencyLevel)]. *)
Definition urgency_of (daysUntilExpiry : Z) : bool * string :=
  if daysUntilExpiry <=? 3 then (true, "URGENT")
  else if daysUntilExpiry <=? 7 then (true, "HIGH")
  else if daysUntilExpiry <=? 15 then (true, "MEDIUM")
  else if daysUntilExpiry <=? 30 then (true, "LOW")
  else (false, EmptyString).

Definition emailSubject (license : License.t) (daysUntilExpiry : Z) : string :=
  "License Expiry Alert: " +:+ License.product_name license +:+ " - "
  +:+ pretty daysUntilExpiry +:+ " days remaining".

(** The lines of the message; the layout of the template and its warning
    sign, which is outside ASCII, are not kept. *)
Definition emailHtml (license : License.t) (daysUntilExpiry : Z)
    (urgencyLevel : string) : string :=
  JS.join (String JS.newline EmptyString)
    [ "<h2>License Expiry Notification</h2>";
      "<p><strong>Urgency:</strong> " +:+ urgencyLevel +:+ "</p>";
      "<p><strong>Product:</strong> " +:+ License.product_name license +:+ "</p>";
      "<p><strong>Vendor:</strong> " +:+ License.vendor_name license +:+ "</p>";
      "<p><strong>Expiry Date:</strong> "
        +:+ JS.date_toString (License.expiry_date license) +:+ "</p>";
      "<p><strong>Days Until Expiry:</strong> " +:+ pretty daysUntilExpiry +:+ "</p>";
      (if daysUntilExpiry <=? 3 then
         "<p style=" +:+ JS.dquote +:+ "color: red; font-weight: bold;" +:+ JS.dquote
         +:+ ">URGENT: This license expires very soon!</p>"
       else if daysUntilExpiry <=? 7 then
         "<p style=" +:+ JS.dquote +:+ "color: orange; font-weight: bold;" +:+ JS.dquote
         +:+ ">This license expires within a week!</p>"
       else "<p>Please plan for renewal to avoid service interruption.</p>");
      "<p>Please take necessary action to renew this license before it expires.</p>" ].

(** The state of the loop: the [notifications] array and the requests
    the provider has received. *)
Definition loop_state : Type := list Notification * list EmailRequest.

(** One turn of [for (const license of licenses || [])]. *)
Definition notify (env : Env) (today : Z) (st : loop_state)
    (row : string * License.t) : loop_state :=
  let '(notifications, outbox) := st in
  let license := row.2 in
  let daysUntilExpiry := daysUntilExpiry today license in
  let '(shouldNotify, urgencyLevel) := urgency_of daysUntilExpiry in
  if shouldNotify && JS.truthy (License.notification_email license) then
    let request :=
      {| from := "License Manager <notifications@resend.dev>";
         to := [JS.or_empty (License.notification_email license)];
         subject := emailSubject license daysUntilExpiry;
         html := emailHtml license daysUntilExpiry urgencyLevel |} in
    match resend env outbox request with
    | Returned data_id =>
        (notifications ++
           [ {| license_id := row.1;
                email := License.notification_email license;
                days_until_expiry := daysUntilExpiry;
                urgency := urgencyLevel;
                status := "sent";
                email_id := data_id;
                error := None |} ],
         outbox ++ [request])
    | Threw message =>
        (notifications ++
           [ {| license_id := row.1;
                email := License.notification_email license;
                days_until_expiry := daysUntilExpiry;
                urgency := urgencyLevel;
                status := "failed";
                email_id := None;
                error := Some message |} ],
         outbox ++ [request])
    end
  else st.

Definition count_status (s : string) (notifications : list Notification) : nat :=
  length (filter (fun n => status n = s) notifications).

(** The handler given to [serve]: the response, and the requests the
    provider received during the call. *)
Definition handler (env : Env) (db : Database) (method : string)
    : Response * list EmailRequest :=
  if bool_decide (method = "OPTIONS") then
    (mkResponse Null 200 corsHeaders, [])
  else
    let today := now env in
    let in30Days := today + 30 * 24 * 60 * 60 * 1000 in
    let '(licenses, error) := query env today in30Days db in
    match error with
    | Some e =>
        (mkResponse (Failure e false) 500
           (corsHeaders ++ [("Content-Type", "application/json")]), [])
    | None =>
        let '(notifications, outbox) :=
          foldl (notify env today) ([], []) (default [] licenses) in
        (mkResponse
           (Summary true
              (length (default [] licenses))
              (count_status "sent" notifications)
              (count_status "failed" notifications)
              notifications)
           200
           (corsHeaders ++ [("Content-Type", "application/json")]), outbox)
    end.

End CheckLicenseExpiry.

(** ** Further built-ins *)

Module JSLib.

(** [hay.includes(needle)] *)
Fixpoint includes (needle hay : string) : bool :=
  String.prefix needle hay
  || match hay with
     | EmptyString => false
     | String _ rest => includes needle rest
     end.

(** [a + b] on numbers. *)
Definition add (a b : JS.number) : JS.number :=
  match a, b with
  | JS.NaN, _ | _, JS.NaN => JS.NaN
  | JS.Infinity n1, JS.Infinity n2 => if Bool.eqb n1 n2 then JS.Infinity n1 else JS.NaN
  | JS.Infinity n, JS.Finite _ _ | JS.Finite _ _, JS.Infinity n => JS.Infinity n
  | JS.Finite m1 e1, JS.Finite m2 e2 =>
      let e := Z.min e1 e2 in
      JS.Finite (m1 * 10 ^ (e1 - e) + m2 * 10 ^ (e2 - e)) e
  end.

End JSLib.

(** ** PaymentStatusBadge.tsx: the badge *)

Module StatusBadge.

(** The name of the icon component [getStatusIcon] returns. *)
Definition getStatusIcon (status : option string) : string :=
  if bool_decide (status = Some "Paid") || bool_decide (status = Some "Confirmed")
  then "CheckCircle"
  else if bool_decide (status = Some "Expired")
          || bool_decide (status = Some "Cancelled")
  then "XCircle"
  else if bool_decide (status = Some "Pending") then "Clock"
  else "AlertCircle".

Definition getStatusVariant (status : option string) : string :=
  if bool_decide (status = Some "Paid") || bool_decide (status = Some "Confirmed")
  then "default"
  else if bool_decide (status = Some "Expired")
          || bool_decide (status = Some "Cancelled")
  then "destructive"
  else if bool_decide (status = Some "Pending") then "secondary"
  else "outline".

End StatusBadge.

(** ** PaymentHistoryDialog: the list *)

Module PaymentList.

(** The order of [.order('payment_date', { ascending: false })]. *)
Definition later_first (p q : Payment.t) : Prop :=
  Payment.payment_date q <= Payment.payment_date p.

#[export] Instance later_first_dec p q : Decision (later_first p q).
Proof. unfold later_first. apply _. Defined.

(** [fetchPaymentHistory]: the new [paymentHistory] state and the toast.
    [error] is the error of the query. *)
Definition fetchPaymentHistory (user : option string) (error : option string)
    (licenseId : string) (paymentHistory : list Payment.t) (db : Database)
    : list Payment.t * option Toast :=
  match user with
  | None => (paymentHistory, None)
  | Some _ =>
      match error with
      | Some _ =>
          (paymentHistory,
           Some (mkToast "Error" "Failed to fetch payment history" (Some "destructive")))
      | None =>
          (merge_sort later_first
             (filter (fun p => Payment.license_id p = licenseId) (payment_history db)),
           None)
      end
  end.

(** [paymentHistory.reduce((sum, payment) => sum + payment.amount, 0)] *)
Definition totalPaid (paymentHistory : list Payment.t) : JS.number :=
  foldl (fun sum payment => JSLib.add sum (Payment.amount payment))
        (JS.Finite 0 0) paymentHistory.

End PaymentList.

(** ** LicenseTable.tsx: deletion *)

Module LicenseDelete.

(** [from('licenses').delete().eq('id', id)], with the cascade the
    foreign key of [payment_history] declares: returns [error]. *)
Definition licenses_delete (error : option string) (id : string) (db : Database)
    : Database * option string :=
  match error with
  | Some e => (db, Some e)
  | None =>
      (mkDatabase (delete id (licenses db))
                  (filter (fun p => Payment.license_id p <> id) (payment_history db))
                  (notification_preferences db), None)
  end.

(** [handleDelete]; [deletingLicense] is the id of the license of the
    open confirmation, [error] the error of the call to the store. *)
Definition handleDelete (error : option string) (deletingLicense : option string)
    (db : Database) : outcome :=
  match deletingLicense with
  | None => mkOutcome db None []
  | Some id =>
      let '(db1, error) := licenses_delete error id db in
      match error with
      | Some e => mkOutcome db1 (Some (mkToast "Error" e (Some "destructive"))) []
      | None =>
          mkOutcome db1 (Some (mkToast "Success" "License deleted successfully" None)) []
      end
  end.

End LicenseDelete.

(** ** Dashboard.tsx *)

Module Dashboard.

Definition thirtyDaysFromNow (now : Z) : Z := now + 30 * 24 * 60 * 60 * 1000.

(** The predicate of the filter for upcoming renewals. *)
Definition upcoming (now : Z) (license : License.t) : bool :=
  (JS.Date_of_DATE (License.expiry_date license) <=? thirtyDaysFromNow now)
  && (now <=? JS.Date_of_DATE (License.expiry_date license))
  && negb (License.payment_status license).

(** The predicate of the filter for expired licenses. *)
Definition expired (now : Z) (license : License.t) : bool :=
  JS.Date_of_DATE (License.expiry_date license) <? now.

(** The predicate of the search box. *)
Definition matches (searchTerm : string) (r : LicenseTable.row) : bool :=
  let license := r.1 in
  let searchLower := JS.toLowerCase searchTerm in
  JSLib.includes searchLower (JS.toLowerCase (License.product_name license))
  || JSLib.includes searchLower (JS.toLowerCase (License.vendor_name license))
  || JSLib.includes searchLower (JS.toLowerCase (License.category license))
  || match r.2 with
     | Some location =>
         JSLib.includes searchLower (JS.toLowerCase (Location.name location))
     | None => false
     end
  || JSLib.includes searchLower (JS.toLowerCase (License.billing_cycle license))
  || JSLib.includes searchLower (JS.Number_toString (License.amount license))
  || JSLib.includes searchTerm (JS.date_toString (License.expiry_date license))
  || JSLib.includes searchTerm (JS.date_toString (License.start_date license))
  || JSLib.includes searchLower (if License.payment_status license then "paid" else "unpaid")
  || match License.notes license with
     | Some notes => JSLib.includes searchLower (JS.toLowerCase notes)
     | None => false
     end.

(** [filterLicenses]: the new [filteredLicenses] state. *)
Definition filterLicenses (now : Z)
    (searchTerm categoryFilter branchFilter renewalFilter : string)
    (licenses : list LicenseTable.row) : list LicenseTable.row :=
  let filtered := licenses in
  let filtered :=
    match searchTerm with
    | String _ _ => filter (fun r => matches searchTerm r = true) filtered
    | EmptyString => filtered
    end in
  let filtered :=
    if bool_decide (categoryFilter <> "all")
    then filter (fun r : LicenseTable.row => License.category r.1 = categoryFilter) filtered
    else filtered in
  let filtered :=
    if bool_decide (branchFilter <> "all")
    then filter (fun r : LicenseTable.row => Location.name <$> r.2 = Some branchFilter)
                filtered
    else filtered in
  if bool_decide (renewalFilter = "upcoming")
  then filter (fun r : LicenseTable.row => upcoming now r.1 = true) filtered
  else if bool_decide (renewalFilter = "expired")
  then filter (fun r : LicenseTable.row => expired now r.1 = true) filtered
  else filtered.

Record stats := mkStats {
  total : nat;
  count_upcoming : nat;
  count_expired : nat;
  totalValue : JS.number;
}.

(** [calculateStats]: the new [stats] state. *)
Definition calculateStats (now : Z) (licenses : list LicenseTable.row) : stats :=
  mkStats
    (length licenses)
    (length (filter (fun r : LicenseTable.row => upcoming now r.1 = true) licenses))
    (length (filter (fun r : LicenseTable.row => expired now r.1 = true) licenses))
    (foldl (fun sum (r : LicenseTable.row) => JSLib.add sum (License.amount r.1))
           (JS.Finite 0 0) licenses).

End Dashboard.

(** ** The Notifications page *)

Module Notifications.

(** The order of [.order('expiry_date', { ascending: true })]. *)
Definition sooner_first (a b : string * License.t) : Prop :=
  License.expiry_date a.2 <= License.expiry_date b.2.

#[export] Instance sooner_first_dec a b : Decision (sooner_first a b).
Proof. unfold sooner_first. apply _. Defined.

(** The filters of the query. *)
Definition listed (user_id : string) (today sevenDaysFromNow : Z)
    (license : License.t) : Prop :=
  License.created_by license = user_id
  /\ JS.toISODate today <= License.expiry_date license
  /\ License.expiry_date license <= JS.toISODate sevenDaysFromNow.

#[export] Instance listed_dec user_id today sevenDaysFromNow license :
  Decision (listed user_id today sevenDaysFromNow license).
Proof. unfold listed. apply _. Defined.

(** [fetchExpiringLicenses]: the new [expiringLicenses] state and the
    toast. *)
Definition fetchExpiringLicenses (env : Env) (user : option string)
    (expiringLicenses : list (string * License.t)) (db : Database)
    : list (string * License.t) * option Toast :=
  match user with
  | None => (expiringLicenses, None)
  | Some user_id =>
      let today := now env in
      let sevenDaysFromNow := today + 7 * 24 * 60 * 60 * 1000 in
      match licenses_select_error env with
      | Some _ =>
          (expiringLicenses,
           Some (mkToast "Error" "Failed to load notifications" (Some "destructive")))
      | None =>
          (merge_sort sooner_first
             (filter (fun r => listed user_id today sevenDaysFromNow r.2)
                     (map_to_list (licenses db))),
           None)
      end
  end.

Definition getDaysUntilExpiry (today expiryDate : Z) : Z :=
  let diffTime := JS.Date_of_DATE expiryDate - today in
  JS.Math_ceil_div diffTime (1000 * 60 * 60 * 24).

(** [getUrgencyBadge]: the variant and the label of the badge. *)
Definition getUrgencyBadge (days : Z) : string * string :=
  if days <=? 3 then ("destructive", "Critical")
  else if days <=? 7 then ("secondary", "Warning")
  else ("outline", "Notice").

(** The colour class of the days remaining. *)
Definition daysColour (daysUntilExpiry : Z) : string :=
  if daysUntilExpiry <=? 3 then "text-red-600"
  else if daysUntilExpiry <=? 7 then "text-orange-600"
  else "text-green-600".

End Notifications.

(** ** AddLicenseForm.tsx *)

Module AddLicenseForm.

(** [LicenseFormData]; a picked date is an instant. *)
Record LicenseFormData := mkForm {
  productName : string;
  vendorName : string;
  categoryId : string;
  locationId : string;
  amount : string;
  billingCycle : string;
  status : string;
  startDate : option Z;
  lastRenewalDate : option Z;
  expiryDate : option Z;
  loginLink : string;
  password : string;
  notes : string;
  notificationEmail : string;
  notificationPhone : string;
}.

Definition initialFormData : LicenseFormData :=
  mkForm EmptyString EmptyString EmptyString EmptyString EmptyString EmptyString
         EmptyString None None None EmptyString EmptyString EmptyString EmptyString
         EmptyString.

Definition isFormValid (formData : LicenseFormData) : bool :=
  JS.truthy (Some (productName formData))
  && JS.truthy (Some (vendorName formData))
  && JS.truthy (Some (categoryId formData))
  && JS.truthy (Some (locationId formData))
  && JS.truthy (Some (amount formData))
  && JS.truthy (Some (billingCycle formData))
  && bool_decide (is_Some (startDate formData))
  && bool_decide (is_Some (expiryDate formData)).

Definition submit_disabled (loading : bool) (formData : LicenseFormData) : bool :=
  loading || negb (isFormValid formData).

(** The row the store makes of the payload of [handleSubmit].  A date
    that was not picked is sent as the empty text, which the DATE type
    refuses; [payment_status] takes its default. *)
Definition payload (categories : list Category.t) (user_id : string)
    (formData : LicenseFormData) : option License.t :=
  let selectedCategory :=
    List.find (fun cat => bool_decide (Category.id cat = categoryId formData))
              categories in
  start ← JS.toISODate <$> startDate formData;
  expiry ← JS.toISODate <$> expiryDate formData;
  Some {| License.product_name := productName formData;
          License.vendor_name := vendorName formData;
          License.category := JS.or_empty (Category.name <$> selectedCategory);
          License.category_id := Some (categoryId formData);
          License.location_id := Some (locationId formData);
          License.amount := JS.parseFloat (amount formData);
          License.billing_cycle := billingCycle formData;
          License.status := Some "Pending";
          License.start_date := start;
          License.expiry_date := expiry;
          License.last_renewal_date := JS.toISODate <$> lastRenewalDate formData;
          License.login_link := JS.or_null (loginLink formData);
          License.password := JS.or_null (password formData);
          License.notes := JS.or_null (notes formData);
          License.notification_email := JS.or_null (notificationEmail formData);
          License.notification_phone := JS.or_null (notificationPhone formData);
          License.payment_status := false;
          License.created_by := user_id;
          License.user_id := Some user_id |}.

(** [from('licenses').insert(row)]: returns [error].  The new row gets
    an id that is not in use. *)
Definition licenses_insert (env : Env) (row : option License.t) (db : Database)
    : Database * option string :=
  match licenses_insert_error env with
  | Some e => (db, Some e)
  | None =>
      match row with
      | None => (db, Some "invalid input syntax for type date")
      | Some l =>
          (mkDatabase (<[fresh_string "license" (licenses db) := l]> (licenses db))
                      (payment_history db) (notification_preferences db), None)
      end
  end.

(** [handleSubmit]; the outcome and whether the page moves to the
    dashboard. *)
Definition handleSubmit (env : Env) (user : option string)
    (categories : list Category.t) (formData : LicenseFormData) (db : Database)
    : outcome * bool :=
  match user with
  | None => (mkOutcome db None [], false)
  | Some user_id =>
      let '(db1, error) := licenses_insert env (payload categories user_id formData) db in
      match error with
      | Some e => (mkOutcome db1 (Some (mkToast "Error" e (Some "destructive"))) [], false)
      | None =>
          (mkOutcome db1 (Some (mkToast "Success" "License added successfully!" None)) [],
           true)
      end
  end.

End AddLicenseForm.

(** ** The trigger on new users *)

Module NewUser.

Record Profile := mkProfile {
  email : string;
  full_name : option string;
  role : string;
}.

(** The tables the trigger writes: [profiles] by its primary key [id],
    [notification_settings] by its unique [user_id], each setting being
    [(email_enabled, days_before_expiry)]. *)
Record Accounts := mkAccounts {
  profiles : gmap string Profile;
  notification_settings : gmap string (bool * list Z);
}.

(** The new row of [auth.users]: its id, its email and the [full_name]
    of its metadata. *)
Record User := mkUser {
  id : string;
  user_email : option string;
  meta_full_name : option string;
}.

(** [handle_new_user()]: the two insertions, in order; [None] when one
    of them raises (a missing email, a key already present), which
    undoes the whole statement. *)
Definition handle_new_user (new : User) (db : Accounts) : option Accounts :=
  address ← user_email new;
  guard (profiles db !! id new = None);;
  let profiles1 :=
    <[id new := mkProfile address (meta_full_name new) "user"]> (profiles db) in
  guard (notification_settings db !! id new = None);;
  Some (mkAccounts profiles1
          (<[id new := (true, [15; 7; 1])]> (notification_settings db))).

End NewUser.

(** ** Vocabulary of the statements *)

Module Sweep.

Import CheckLicenseExpiry.

(** The instant thirty days after [today], as the handler computes it. *)
Definition in30Days (today : Z) : Z := today + 30 * 24 * 60 * 60 * 1000.

(** The rows the query hands to the loop when it does not fail. *)
Definition checked (env : Env) (db : Database) : list (string * License.t) :=
  filter (fun r => selected (now env) (in30Days (now env)) r.2)
         (map_to_list (licenses db)).

(** The rows of the loop for which a message is attempted. *)
Definition due (today : Z) (row : string * License.t) : Prop :=
  (urgency_of (daysUntilExpiry today row.2)).1
  && JS.truthy (License.notification_email row.2) = true.

#[export] Instance due_dec today row : Decision (due today row).
Proof. unfold due. apply _. Defined.

Definition request_of (today : Z) (row : string * License.t) : EmailRequest :=
  let d := daysUntilExpiry today row.2 in
  {| from := "License Manager <notifications@resend.dev>";
     to := [JS.or_empty (License.notification_email row.2)];
     subject := emailSubject row.2 d;
     html := emailHtml row.2 d (urgency_of d).2 |}.

(** The record of one attempt, from the way the attempt ended. *)
Definition detail_of (today : Z) (row : string * License.t) (o : SendOutcome)
    : Notification :=
  let d := daysUntilExpiry today row.2 in
  {| license_id := row.1;
     email := License.notification_email row.2;
     days_until_expiry := d;
     urgency := (urgency_of d).2;
     status := match o with Returned _ => "sent" | Threw _ => "failed" end;
     email_id := match o with Returned i => i | Threw _ => None end;
     error := match o with Returned _ => None | Threw m => Some m end |}.

(** One attempt per due row, each ending by its own outcome, the provider
    having received the requests of the rows before it. *)
Fixpoint details_from (env : Env) (today : Z) (outbox : list EmailRequest)
    (rows : list (string * License.t)) : list Notification :=
  match rows with
  | [] => []
  | row :: rest =>
      detail_of today row (resend env outbox (request_of today row))
      :: details_from env today (outbox ++ [request_of today row]) rest
  end.

Definition details_of (r : Response) : list Notification :=
  match body r with
  | Summary _ _ _ _ details => details
  | _ => []
  end.

End Sweep.

(** The order of the tiers of the table. *)
Definition tier_rank (status : string) : Z :=
  if bool_decide (status = "expired") then 0
  else if bool_decide (status = "critical") then 1
  else if bool_decide (status = "warning") then 2
  else 3.

(** A line of the export, from the texts of its fields. *)
Definition csv_line (fields : list string) : string :=
  JS.join "," (map (fun s => JS.dquote +:+ s +:+ JS.dquote) fields).

(** Whether [c] occurs in [s]. *)
Fixpoint has_char (c : ascii) (s : string) : bool :=
  match s with
  | EmptyString => false
  | String c' r => Ascii.eqb c' c || has_char c r
  end.

(** The row number of the import messages in the words of the
    specification: the 1-based index of the data row, plus two. *)
Definition spec_row_number (data_row : nat) : nat := data_row + 2.

(** The numbering of the messages as the specification words it, for the
    rows of one file. *)
Definition numbered_as_specified (Date_parse : string -> option Z)
    (rows : list (gmap string string)) : Prop :=
  forall i row msg,
    rows !! i = Some row ->
    msg ∈ ImportLicenseDialog.validateRow Date_parse row i ->
    exists what,
      msg = "Row " +:+ pretty (spec_row_number (S i)) +:+ ": " +:+ what.

(** ** Sample data *)

Module Samples.

(** Proleptic Gregorian (year, month, day) to days since the epoch. *)
Definition days_from_civil (y m d : Z) : Z :=
  let y := if m <=? 2 then y - 1 else y in
  let era := y / 400 in
  let yoe := y - era * 400 in
  let doy := (153 * (if 2 <? m then m - 3 else m + 9) + 2) / 5 + d - 1 in
  let doe := yoe * 365 + yoe / 4 - yoe / 100 + doy in
  era * 146097 + doe - 719468.

(** A reader of the form YYYY-MM-DD and of nothing else: the day it names,
    if the calendar has it. *)
Definition date_only (s : string) : option Z :=
  match JS.leading_digits s with
  | ([y1; y2; y3; y4], String "-"%char r1) =>
      match JS.leading_digits r1 with
      | ([m1; m2], String "-"%char r2) =>
          match JS.leading_digits r2 with
          | ([d1; d2], EmptyString) =>
              let day :=
                days_from_civil (JS.digits_value [y1; y2; y3; y4])
                                (JS.digits_value [m1; m2]) (JS.digits_value [d1; d2]) in
              if bool_decide (JS.date_toString day = s) then Some day else None
          | _ => None
          end
      | _ => None
      end
  | _ => None
  end.

(** [Date.parse] restricted to that form. *)
Definition Date_parse (s : string) : option Z :=
  JS.Date_of_DATE <$> date_only s.

Definition office : License.t :=
  {| License.product_name := "Microsoft Office";
     License.vendor_name := "Microsoft";
     License.category := "Software";
     License.category_id := None;
     License.location_id := None;
     License.amount := JS.Finite 9900 (-2);
     License.billing_cycle := "Annual";
     License.status := Some "Pending";
     License.start_date := 19723;
     License.expiry_date := 20088;
     License.last_renewal_date := None;
     License.login_link := Some "https://office.com";
     License.password := None;
     License.notes := Some "Office, productivity suite";
     License.notification_email := Some "user@company.com";
     License.notification_phone := None;
     License.payment_status := false;
     License.created_by := "user-1";
     License.user_id := Some "user-1" |}.

Definition adobe : License.t :=
  {| License.product_name := "Adobe Creative Suite";
     License.vendor_name := "Adobe";
     License.category := "Design";
     License.category_id := None;
     License.location_id := None;
     License.amount := JS.Finite 299 0;
     License.billing_cycle := "Monthly";
     License.status := Some "Paid";
     License.start_date := 19723;
     License.expiry_date := 20070;
     License.last_renewal_date := Some 20040;
     License.login_link := None;
     License.password := None;
     License.notes := None;
     License.notification_email := Some "design@company.com";
     License.notification_phone := None;
     License.payment_status := true;
     License.created_by := "user-1";
     License.user_id := Some "user-1" |}.

Definition db : Database :=
  mkDatabase {[ "lic-1" := office; "lic-2" := adobe ]} [] ∅.

(** The browser on 2024-12-10 at 10:00 UTC, signed in, the store answering
    every call. *)
Definition browser : Env :=
  mkEnv (20067 * JS.msPerDay + 36000000) (Some "user-1") None None None None.

(** The same, the store refusing the insertion of payment records. *)
Definition browser_no_insert : Env :=
  mkEnv (20067 * JS.msPerDay + 36000000) (Some "user-1") None None None
        (Some "permission denied").

Definition payment_form : PaymentHistoryDialog.newPayment :=
  PaymentHistoryDialog.mkNewPayment "99.00" (Some (20067 * JS.msPerDay))
    "UPI" EmptyString EmptyString.

(** The edge function on the same day, with a provider that throws on the
    first request it receives and accepts the others. *)
Definition edge : CheckLicenseExpiry.Env :=
  CheckLicenseExpiry.mkEnv (20067 * JS.msPerDay + 36000000) None
    (fun outbox _ =>
       match outbox with
       | [] => CheckLicenseExpiry.Threw "rate limit exceeded"
       | _ => CheckLicenseExpiry.Returned (Some "email-1")
       end).

Definition csv_header : string :=
  "product_name,vendor_name,category,amount,billing_cycle,status,start_date,expiry_date,last_renewal_date,login_link,password,notes,notification_email,notification_phone".

(** A file of one data row, whose amount is missing. *)
Definition csv_missing_amount : string :=
  csv_header +:+ String JS.newline
    "Microsoft Office,Microsoft,Software,,Annual,Active,2024-01-01,2024-12-31,2024-01-01,https://office.com,password123,Office productivity suite,user@company.com,+1234567890".

(** A file of two data rows, the second with a text for amount. *)
Definition csv_two_rows : string :=
  csv_header +:+ String JS.newline
    "Microsoft Office,Microsoft,Software,99.00,Annual,Active,2024-01-01,2024-12-31,2024-01-01,https://office.com,password123,Office productivity suite,user@company.com,+1234567890"
  +:+ String JS.newline
    "Adobe Creative Suite,Adobe,Design,tbd,Monthly,Active,2024-01-01,02/01/2024,,https://adobe.com,password456,Design software,design@company.com,+1234567891".

(** A file of one data row that passes validation. *)
Definition csv_valid : string :=
  csv_header +:+ String JS.newline
    "Slack,Slack Inc,Software,12.50,Monthly,Active,2024-01-01,2024-12-31,,,,,ops@company.com,".

End Samples.

(** ** Further vocabulary *)

(** Every payment record names a license of the table. *)
Definition references_hold (db : Database) : Prop :=
  forall p, p ∈ payment_history db -> is_Some (licenses db !! Payment.license_id p).

(** The record [addPayment] sends for a form. *)
Definition entered (user_id licenseId : string)
    (form : PaymentHistoryDialog.newPayment) (picked : Z) : Payment.t :=
  {| Payment.license_id := licenseId;
     Payment.amount := JS.parseFloat (PaymentHistoryDialog.amount form);
     Payment.payment_date := JS.toISODate picked;
     Payment.payment_method := JS.or_null (PaymentHistoryDialog.payment_method form);
     Payment.transaction_id := JS.or_null (PaymentHistoryDialog.transaction_id form);
     Payment.notes := JS.or_null (PaymentHistoryDialog.notes form);
     Payment.created_by := user_id |}.

(** The pieces [parseCSV] cuts a text into: the header names, the lines
    of data and the cells of a line. *)
Definition header_names (text : string) : list string :=
  map JS.trim
      (JS.split JS.comma (hd EmptyString (JS.split JS.newline (JS.trim text)))).

Definition data_lines (text : string) : list string :=
  tl (JS.split JS.newline (JS.trim text)).

Definition cells (line : string) : list string :=
  map (fun v => JS.strip_quotes (JS.trim v)) (JS.split JS.comma line).

(** The names of the columns [validateRow] requires. *)
Definition required_columns : list string :=
  [ "product_name"; "vendor_name"; "category"; "amount"; "billing_cycle";
    "status"; "start_date"; "expiry_date" ].

(** ** Further sample data *)

Module MoreSamples.

(** The browser of the samples, the store refusing to read licenses. *)
Definition browser_no_select : Env :=
  mkEnv (20067 * JS.msPerDay + 36000000) (Some "user-1") None (Some "timeout") None None.

(** The same, the store refusing to update licenses. *)
Definition browser_no_update : Env :=
  mkEnv (20067 * JS.msPerDay + 36000000) (Some "user-1") (Some "timeout") None None None.

(** A license that expires on the day of the samples, 2024-12-10. *)
Definition expiring_today : License.t :=
  {| License.product_name := "Zoom";
     License.vendor_name := "Zoom Video";
     License.category := "Communication";
     License.category_id := None;
     License.location_id := None;
     License.amount := JS.Finite 1499 (-2);
     License.billing_cycle := "Monthly";
     License.status := Some "Pending";
     License.start_date := 20036;
     License.expiry_date := 20067;
     License.last_renewal_date := None;
     License.login_link := None;
     License.password := None;
     License.notes := None;
     License.notification_email := Some EmptyString;
     License.notification_phone := None;
     License.payment_status := false;
     License.created_by := "user-1";
     License.user_id := Some "user-1" |}.

Definition rows : list LicenseTable.row :=
  [ (Samples.office, Some (Location.mk "loc-1" "India"));
    (Samples.adobe, None);
    (expiring_today, None) ].

(** Licenses whose exported fields hold no comma and no line break. *)
Definition plain_rows : list LicenseTable.row :=
  [ (Samples.adobe, None);
    (expiring_today, Some (Location.mk "loc-1" "India")) ].

(** A license whose notes take two lines. *)
Definition noted : License.t :=
  {| License.product_name := "Notion";
     License.vendor_name := "Notion Labs";
     License.category := "Software";
     License.category_id := None;
     License.location_id := None;
     License.amount := JS.Finite 96 0;
     License.billing_cycle := "Annual";
     License.status := Some "Pending";
     License.start_date := 20036;
     License.expiry_date := 20401;
     License.last_renewal_date := None;
     License.login_link := None;
     License.password := None;
     License.notes := Some ("team plan" +:+ String JS.newline "renew by card");
     License.notification_email := Some "ops@company.com";
     License.notification_phone := None;
     License.payment_status := false;
     License.created_by := "user-1";
     License.user_id := Some "user-1" |}.

Definition fields : list string :=
  [ "Microsoft Office"; " padded "; "say " +:+ JS.dquote +:+ "hi" +:+ JS.dquote ].

Definition valid_line : string :=
  "Slack,Slack Inc,Software,12.50,Monthly,Active,2024-01-01,2024-12-31,,,,,ops@company.com,".

Definition form : AddLicenseForm.LicenseFormData :=
  AddLicenseForm.mkForm "Figma" "Figma Inc" "cat-3" "loc-1" "45.5" "Annual" "Paid"
    (Some (20067 * JS.msPerDay)) None (Some (20432 * JS.msPerDay + 1000))
    EmptyString EmptyString EmptyString "design@company.com" EmptyString.

Definition categories : list Category.t :=
  [ Category.mk "cat-1" "Software"; Category.mk "cat-3" "Design" ].

Definition new_user : NewUser.User :=
  NewUser.mkUser "user-7" (Some "ana@company.com") None.

End MoreSamples.

(** * Properties *)

(** ** The embedding on concrete inputs *)

Example parseFloat_samples :
  map JS.parseFloat ["99.00"; "  -1.5e3xyz"; "abc"; ".e3"; "12abc"; "5."; "Infinity"]
  = [ JS.Finite 9900 (-2); JS.Finite (-15) 2; JS.NaN; JS.NaN; JS.Finite 12 0;
      JS.Finite 5 0; JS.Infinity false ].
Proof. reflexivity. Qed.

Example Number_toString_samples :
  map JS.Number_toString
    [ JS.Finite 9900 (-2); JS.Finite 995 (-1); JS.Finite 12 3; JS.Finite (-5) (-3);
      JS.Finite 1 21; JS.Finite 1 (-7); JS.Finite 123 (-9); JS.Finite 0 5;
      JS.Finite 29999 (-2) ]
  = ["99"; "99.5"; "12000"; "-0.005"; "1e+21"; "1e-7"; "1.23e-7"; "0"; "299.99"].
Proof. vm_compute. reflexivity. Qed.

Example string_samples :
  JS.split JS.comma "a,,b," = ["a"; EmptyString; "b"; EmptyString]
  /\ JS.trim "  a b  " = "a b"
  /\ JS.strip_quotes (JS.dquote +:+ "a" +:+ JS.dquote) = "a"
  /\ JS.strip_quotes JS.dquote = EmptyString
  /\ JS.strip_quotes (JS.dquote +:+ JS.dquote) = EmptyString
  /\ JS.strip_quotes ("ab" +:+ JS.dquote) = "ab".
Proof. repeat split; reflexivity. Qed.

Example date_samples :
  map JS.date_toString [0; -1; 19675; 19723; 19782; 20067; 20088]
  = [ "1970-01-01"; "1969-12-31"; "2023-11-14"; "2024-01-01"; "2024-02-29";
      "2024-12-10"; "2024-12-31" ]
  /\ JS.toISODate 1700000000000 = 19675
  /\ map Samples.date_only ["2024-12-31"; "2024-02-30"; "02/01/2024"]
     = [Some 20088; None; None].
Proof. vm_compute. repeat split. Qed.

(** On 2024-12-10 at 10:00 UTC: a license expiring that day has 0 days
    left and is critical, one that expired the day before is expired. *)
Example getExpiryStatus_samples :
  map (LicenseTable.getExpiryStatus (now Samples.browser)) [20066; 20067; 20074; 20075; 20098]
  = [ LicenseTable.mkExpiryStatus "expired" "destructive" "Expired";
      LicenseTable.mkExpiryStatus "critical" "destructive" "0 days";
      LicenseTable.mkExpiryStatus "critical" "destructive" "7 days";
      LicenseTable.mkExpiryStatus "warning" "default" "8 days";
      LicenseTable.mkExpiryStatus "active" "secondary" "31 days" ].
Proof. vm_compute. reflexivity. Qed.

(** A comma inside a field goes into the export as it is. *)
Example exportToCSV_sample :
  LicenseTable.exportToCSV (now Samples.browser)
    [(Samples.office, Some (Location.mk "loc-1" "Head Office"))]
  = LicenseTable.mkExport "licenses_2024-12-10.csv"
      (csv_line LicenseTable.headers +:+ String JS.newline
         (csv_line [ "Microsoft Office"; "Microsoft"; "Software"; "Head Office";
                     "99"; "Annual"; "2024-01-01"; "2024-12-31"; EmptyString;
                     "Pending"; "Unpaid"; "Office, productivity suite" ]))
      "text/csv;charset=utf-8;"
      (mkToast "Success" "Licenses exported successfully" None).
Proof. vm_compute. reflexivity. Qed.

(** The second data row has two faults; both are reported, as Row 3. *)
Example allErrors_sample :
  ImportLicenseDialog.allErrors Samples.Date_parse
    (ImportLicenseDialog.parseCSV Samples.csv_two_rows)
  = ["Row 3: Valid amount is required"; "Row 3: Invalid expiry date format"].
Proof. vm_compute. reflexivity. Qed.

(** A column named [__proto__] gives the rows no key. *)
Example parseCSV_proto_sample :
  map map_to_list
      (ImportLicenseDialog.parseCSV ("__proto__,a" +:+ String JS.newline "x,y"))
  = [[("a", "y")]].
Proof. vm_compute. reflexivity. Qed.

(** A header without data rows is imported as zero licenses. *)
Example handleImport_header_only :
  ImportLicenseDialog.handleImport Samples.Date_parse Samples.date_only
    Samples.browser (Some Samples.csv_header) (Some "user-1") [] [] [] Samples.db
  = ImportLicenseDialog.mkImport Samples.db []
      (Some (mkToast "Success" "Successfully imported 0 license(s)!" None)).
Proof. vm_compute. reflexivity. Qed.

Example handleImport_valid_row :
  let r := ImportLicenseDialog.handleImport Samples.Date_parse Samples.date_only
             Samples.browser (Some Samples.csv_valid) (Some "user-1")
             [Category.mk "cat-7" "SOFTWARE"] [Location.mk "loc-1" "Head Office"]
             [] Samples.db in
  map fst (map_to_list (licenses (ImportLicenseDialog.db_after r)))
    = ["lic-1"; "lic-2"; "license"]
  /\ (License.category_id <$> licenses (ImportLicenseDialog.db_after r) !! "license")
     = Some (Some "cat-7")
  /\ (License.amount <$> licenses (ImportLicenseDialog.db_after r) !! "license")
     = Some (JS.Finite 1250 (-2))
  /\ ImportLicenseDialog.errors r = [].
Proof. vm_compute. repeat split. Qed.

(** The provider throws on the first request and accepts the second. *)
Example handler_sample :
  CheckLicenseExpiry.body (CheckLicenseExpiry.handler Samples.edge Samples.db "POST").1
  = CheckLicenseExpiry.Summary true 2 1 1
      [ CheckLicenseExpiry.mkNotification "lic-1" (Some "user@company.com") 21 "LOW"
          "failed" None (Some "rate limit exceeded");
        CheckLicenseExpiry.mkNotification "lic-2" (Some "design@company.com") 3
          "URGENT" "sent" (Some "email-1") None ]
  /\ map CheckLicenseExpiry.subject
       (CheckLicenseExpiry.handler Samples.edge Samples.db "POST").2
     = [ "License Expiry Alert: Microsoft Office - 21 days remaining";
         "License Expiry Alert: Adobe Creative Suite - 3 days remaining" ].
Proof. vm_compute. split; reflexivity. Qed.

(** The store refuses the payment record: the status is updated all the
    same, under a success toast, and the refusal is a console warning. *)
Example updateStatus_insert_refused :
  let r := PaymentStatusBadge.updateStatus Samples.browser_no_insert "lic-1"
             (Some "Pending") "Paid" Samples.db in
  (License.status <$> licenses (db_after r) !! "lic-1") = Some (Some "Paid")
  /\ (License.payment_status <$> licenses (db_after r) !! "lic-1") = Some true
  /\ payment_history (db_after r) = []
  /\ toast r = Some (mkToast "Success" "Status updated and payment history created!" None)
  /\ console_warn r = ["Failed to create payment history: permission denied"].
Proof. vm_compute. repeat split. Qed.

(** ** Status transitions *)

Section StatusTransitions.

Import PaymentStatusBadge.

Lemma becomes_paid_true currentStatus newStatus :
  becomes_paid currentStatus newStatus = true <->
  newStatus = "Paid" /\ currentStatus <> Some "Paid".
Proof.
  unfold becomes_paid. rewrite andb_true_iff, negb_true_iff.
  rewrite bool_decide_eq_true, bool_decide_eq_false. tauto.
Qed.

Lemma licenses_update_ok env u id db :
  licenses_update_error env = None ->
  Supabase.licenses_update env u id db =
    (mkDatabase (alter (License.apply u) id (licenses db))
                (payment_history db) (notification_preferences db), None).
Proof. intros H. unfold Supabase.licenses_update. now rewrite H. Qed.

(** C2: the payload of the update carries [payment_status = true] for the
    new statuses Paid and Confirmed, [false] for Expired and Cancelled, and
    no [payment_status] at all for any other new status; once the store has
    applied it, the row has the new status and its [payment_status] is
    true, false or what it was, accordingly.  The current status plays no
    part. *)
Theorem updateStatus_payment_status env licenseId currentStatus newStatus db l :
  licenses db !! licenseId = Some l ->
  licenses_update_error env = None ->
  exists l',
    licenses (db_after (updateStatus env licenseId currentStatus newStatus db))
      !! licenseId = Some l'
    /\ License.status l' = Some newStatus
    /\ (newStatus = "Paid" \/ newStatus = "Confirmed" ->
        License.set_payment_status (updateData newStatus) = Some true
        /\ License.payment_status l' = true)
    /\ (newStatus = "Expired" \/ newStatus = "Cancelled" ->
        License.set_payment_status (updateData newStatus) = Some false
        /\ License.payment_status l' = false)
    /\ (newStatus <> "Paid" -> newStatus <> "Confirmed" ->
        newStatus <> "Expired" -> newStatus <> "Cancelled" ->
        License.set_payment_status (updateData newStatus) = None
        /\ License.payment_status l' = License.payment_status l).
Proof.
  intros Hl Hok.
  exists (License.apply (updateData newStatus) l).
  assert (Hrow : licenses (db_after (updateStatus env licenseId currentStatus newStatus db))
                   !! licenseId = Some (License.apply (updateData newStatus) l)).
  { unfold updateStatus. rewrite (licenses_update_ok _ _ _ _ Hok).
    destruct (becomes_paid currentStatus newStatus); cbn.
    - unfold Supabase.licenses_select_amount, Supabase.payment_history_insert.
      destruct (licenses_select_error env); cbn.
      + rewrite lookup_alter_eq, Hl. reflexivity.
      + rewrite lookup_alter_eq, Hl. cbn.
        destruct (payment_insert_error env); cbn;
          rewrite lookup_alter_eq, Hl; reflexivity.
    - rewrite lookup_alter_eq, Hl. reflexivity. }
  split; [exact Hrow|]. split; [reflexivity|].
  unfold updateData, License.apply; cbn.
  repeat split.
  - destruct H as [-> | ->]; reflexivity.
  - destruct H as [-> | ->]; reflexivity.
  - destruct H as [-> | ->]; reflexivity.
  - destruct H as [-> | ->]; reflexivity.
  - rewrite !bool_decide_eq_false_2 by assumption. reflexivity.
  - rewrite !bool_decide_eq_false_2 by assumption. reflexivity.
Qed.

(** C8: asking for the status the license already has adds no payment
    record, whatever the store answers; and the button that would send
    such a request is disabled. *)
Theorem updateStatus_same_status_no_payment env licenseId currentStatus newStatus db :
  currentStatus = Some newStatus ->
  payment_history (db_after (updateStatus env licenseId currentStatus newStatus db))
    = payment_history db
  /\ update_disabled false currentStatus newStatus = true.
Proof.
  intros ->. split.
  - unfold updateStatus, Supabase.licenses_update.
    assert (Hnp : becomes_paid (Some newStatus) newStatus = false).
    { apply not_true_iff_false. rewrite becomes_paid_true.
      intros [-> H]. now apply H. }
    rewrite Hnp.
    destruct (licenses_update_error env); reflexivity.
  - unfold update_disabled. cbn. now apply bool_decide_eq_true_2.
Qed.

(** C1: for a license whose status is not Paid, the transition to Paid,
    once the store has applied the update and handed back the amount,
    leaves the status update in place whatever becomes of the insertion;
    when the insertion succeeds the payment history has gained exactly one
    record, for this license, with the amount of the license, today's
    date, the automatic note and the signed-in user as owner; when it
    fails the history is unchanged and the failure is only a warning on
    the console, under a success toast. *)
Theorem updateStatus_paid_creates_payment env licenseId db l user_id :
  licenses db !! licenseId = Some l ->
  License.status l <> Some "Paid" ->
  auth_user env = Some user_id ->
  licenses_update_error env = None ->
  licenses_select_error env = None ->
  let r := updateStatus env licenseId (License.status l) "Paid" db in
  let record :=
    {| Payment.license_id := licenseId;
       Payment.amount := License.amount l;
       Payment.payment_date := JS.toISODate (now env);
       Payment.payment_method := None;
       Payment.transaction_id := None;
       Payment.notes := Some auto_note;
       Payment.created_by := user_id |} in
  licenses (db_after r) !! licenseId = Some (License.apply (updateData "Paid") l)
  /\ License.status (License.apply (updateData "Paid") l) = Some "Paid"
  /\ (exists d, toast r = Some (mkToast "Success" d None))
  /\ (payment_insert_error env = None ->
      payment_history (db_after r) = payment_history db ++ [record]
      /\ console_warn r = [])
  /\ (forall e, payment_insert_error env = Some e ->
      payment_history (db_after r) = payment_history db
      /\ console_warn r = ["Failed to create payment history: " +:+ e]).
Proof.
  intros Hl Hst Hu Hup Hsel r record. subst r record.
  unfold updateStatus. rewrite (licenses_update_ok _ _ _ _ Hup).
  assert (Hbp : becomes_paid (License.status l) "Paid" = true)
    by (apply becomes_paid_true; auto).
  rewrite Hbp.
  unfold Supabase.licenses_select_amount. rewrite Hsel. cbn [licenses].
  rewrite lookup_alter_eq, Hl. cbn [fmap option_fmap option_map].
  unfold Supabase.payment_history_insert. rewrite Hu. cbn [JS.or_empty].
  destruct (payment_insert_error env) as [e|] eqn:Hins; cbn;
    rewrite lookup_alter_eq, Hl; cbn;
    (split; [reflexivity|split; [reflexivity|split; [eauto|split]]]).
  - discriminate.
  - intros e' [= <-]. split; reflexivity.
  - intros _. split; reflexivity.
  - discriminate.
Qed.

End StatusTransitions.

Section ManualPayment.

Import PaymentHistoryDialog.

(** C9: a payment added by hand, once the store has taken the record and
    applied the update that follows, leaves the license with
    [payment_status] true and status Paid, whatever its status and
    [payment_status] were and whatever has been paid before; nothing else
    of the license changes. *)
Theorem addPayment_forces_paid env user_id licenseId form picked db l :
  licenses db !! licenseId = Some l ->
  amount form <> EmptyString ->
  payment_date form = Some picked ->
  payment_insert_error env = None ->
  licenses_update_error env = None ->
  let r := addPayment env (Some user_id) licenseId form db in
  let l' := License.apply paid_update l in
  licenses (db_after r) !! licenseId = Some l'
  /\ License.payment_status l' = true
  /\ License.status l' = Some "Paid"
  /\ License.amount l' = License.amount l
  /\ payment_history (db_after r) =
       payment_history db ++
         [ {| Payment.license_id := licenseId;
              Payment.amount := JS.parseFloat (amount form);
              Payment.payment_date := JS.toISODate picked;
              Payment.payment_method := JS.or_null (payment_method form);
              Payment.transaction_id := JS.or_null (transaction_id form);
              Payment.notes := JS.or_null (notes form);
              Payment.created_by := user_id |} ].
Proof.
  intros Hl Ham Hd Hins Hup r l'. subst r l'.
  unfold addPayment. rewrite Hd.
  destruct (amount form) as [|c rest] eqn:Ea; [congruence|].
  unfold Supabase.payment_history_insert. rewrite Hins.
  rewrite (licenses_update_ok _ _ _ _ Hup). cbn.
  rewrite lookup_alter_eq, Hl. cbn.
  repeat split.
Qed.

End ManualPayment.

(** ** Expiry classification *)

Section Expiry.

Lemma msPerDay_pos : 0 < JS.msPerDay.
Proof. reflexivity. Qed.

(** [Math.ceil] of a quotient is the least integer not below it. *)
Lemma Math_ceil_div_spec a b q :
  0 < b -> JS.Math_ceil_div a b = q <-> b * (q - 1) < a <= b * q.
Proof.
  intros Hb. unfold JS.Math_ceil_div. split.
  - intros <-.
    pose proof (Z.mul_div_le (- a) b Hb).
    pose proof (Z.mul_succ_div_gt (- a) b Hb). nia.
  - intros [H1 H2].
    assert (- a / b = - q); [|lia].
    symmetry. apply Z.div_unique_pos with (r := b * q - a); lia.
Qed.

(** Against midnight of a calendar day the ceiling swallows the time of
    day of [now]: what is left is a difference of calendar days. *)
Lemma ceil_days_calendar now day :
  JS.Math_ceil_div (JS.Date_of_DATE day - now) JS.msPerDay = day - JS.toISODate now.
Proof.
  unfold JS.Math_ceil_div, JS.Date_of_DATE, JS.toISODate.
  replace (- (day * JS.msPerDay - now)) with (now + (- day) * JS.msPerDay) by lia.
  rewrite Z.div_add by (unfold JS.msPerDay; lia). lia.
Qed.

Lemma getExpiryStatus_status now expiryDate :
  LicenseTable.status (LicenseTable.getExpiryStatus now expiryDate) =
    let d := LicenseTable.daysUntilExpiry now expiryDate in
    if d <? 0 then "expired" else if d <=? 7 then "critical"
    else if d <=? 30 then "warning" else "active".
Proof.
  unfold LicenseTable.getExpiryStatus. cbv zeta.
  repeat case_match; reflexivity.
Qed.

(** C7: the days until expiry are the ceiling of (expiry - now) / one day,
    which is the number of calendar days from the day of [now] to the
    expiry day; the tier is expired exactly below 0, critical from 0 to 7,
    warning from 8 to 30, active above; and a license with at least as
    many days left never gets a lower tier. *)
Theorem getExpiryStatus_tiers now expiryDate now' expiryDate' :
  let d := LicenseTable.daysUntilExpiry now expiryDate in
  let d' := LicenseTable.daysUntilExpiry now' expiryDate' in
  let tier := LicenseTable.status (LicenseTable.getExpiryStatus now expiryDate) in
  let tier' := LicenseTable.status (LicenseTable.getExpiryStatus now' expiryDate') in
  (JS.msPerDay * (d - 1) < JS.Date_of_DATE expiryDate - now <= JS.msPerDay * d)
  /\ d = expiryDate - JS.toISODate now
  /\ (tier = "expired" <-> d < 0)
  /\ (tier = "critical" <-> 0 <= d <= 7)
  /\ (tier = "warning" <-> 8 <= d <= 30)
  /\ (tier = "active" <-> 30 < d)
  /\ (d <= d' -> tier_rank tier <= tier_rank tier').
Proof.
  intros d d' tier tier'.
  split; [apply Math_ceil_div_spec; [apply msPerDay_pos | reflexivity]|].
  split; [apply ceil_days_calendar|].
  subst tier tier'. rewrite !getExpiryStatus_status. fold d d'. cbv zeta.
  assert (Hcases : forall x,
    let t := if x <? 0 then "expired" else if x <=? 7 then "critical"
             else if x <=? 30 then "warning" else "active" in
    (x < 0 /\ t = "expired" /\ tier_rank t = 0)
    \/ (0 <= x <= 7 /\ t = "critical" /\ tier_rank t = 1)
    \/ (8 <= x <= 30 /\ t = "warning" /\ tier_rank t = 2)
    \/ (30 < x /\ t = "active" /\ tier_rank t = 3)).
  { intros x. cbv zeta.
    destruct (Z.ltb_spec x 0); [left; split; [lia|split; reflexivity]|].
    destruct (Z.leb_spec x 7); [right; left; split; [lia|split; reflexivity]|].
    destruct (Z.leb_spec x 30); [right; right; left; split; [lia|split; reflexivity]|].
    right; right; right; split; [lia|split; reflexivity]. }
  pose proof (Hcases d) as Hd. pose proof (Hcases d') as Hd'. cbv zeta in Hd, Hd'.
  destruct Hd as [(? & -> & Hr)|[(? & -> & Hr)|[(? & -> & Hr)|(? & -> & Hr)]]];
    (repeat split; try (intros; first [discriminate | lia]));
    destruct Hd' as [(? & -> & Hr')|[(? & -> & Hr')|[(? & -> & Hr')|(? & -> & Hr')]]];
    cbn; lia.
Qed.

End Expiry.

(** ** The notification sweep *)

Section SweepProofs.

Import CheckLicenseExpiry Sweep.

Lemma in30Days_date today :
  JS.toISODate (in30Days today) = JS.toISODate today + 30.
Proof.
  unfold in30Days, JS.toISODate.
  replace (today + 30 * 24 * 60 * 60 * 1000) with (today + 30 * JS.msPerDay)
    by (unfold JS.msPerDay; lia).
  apply Z.div_add. unfold JS.msPerDay. lia.
Qed.

Lemma urgency_of_cases d :
  (d <= 3 /\ urgency_of d = (true, "URGENT"))
  \/ (3 < d <= 7 /\ urgency_of d = (true, "HIGH"))
  \/ (7 < d <= 15 /\ urgency_of d = (true, "MEDIUM"))
  \/ (15 < d <= 30 /\ urgency_of d = (true, "LOW"))
  \/ (30 < d /\ urgency_of d = (false, EmptyString)).
Proof.
  unfold urgency_of.
  destruct (Z.leb_spec d 3); [left; split; [lia|reflexivity]|].
  destruct (Z.leb_spec d 7); [right; left; split; [lia|reflexivity]|].
  destruct (Z.leb_spec d 15); [right; right; left; split; [lia|reflexivity]|].
  destruct (Z.leb_spec d 30); [right; right; right; left; split; [lia|reflexivity]|].
  right; right; right; right. split; [lia|reflexivity].
Qed.

(** The loop, turn by turn, is one isolated attempt per due row. *)
Lemma notify_due env today ns outbox row :
  due today row ->
  notify env today (ns, outbox) row =
    (ns ++ [detail_of today row (resend env outbox (request_of today row))],
     outbox ++ [request_of today row]).
Proof.
  unfold due, notify, detail_of, request_of. intros Hdue.
  destruct (urgency_of (daysUntilExpiry today row.2)) as [shouldNotify urgencyLevel].
  cbn [fst snd] in *. rewrite Hdue.
  destruct (resend env outbox _); reflexivity.
Qed.

Lemma notify_not_due env today st row :
  ~ due today row -> notify env today st row = st.
Proof.
  unfold due, notify. intros Hdue. destruct st as [ns outbox].
  destruct (urgency_of (daysUntilExpiry today row.2)) as [shouldNotify urgencyLevel].
  cbn [fst snd] in *.
  destruct (shouldNotify && JS.truthy (License.notification_email row.2));
    [now destruct Hdue | reflexivity].
Qed.

Lemma foldl_notify env today rows : forall ns outbox,
  foldl (notify env today) (ns, outbox) rows =
    (ns ++ details_from env today outbox (filter (due today) rows),
     outbox ++ map (request_of today) (filter (due today) rows)).
Proof.
  induction rows as [|row rows IH]; intros ns outbox; cbn [foldl].
  - cbn. now rewrite !app_nil_r.
  - destruct (decide (due today row)) as [Hdue|Hdue].
    + rewrite notify_due by assumption. rewrite IH.
      rewrite filter_cons_True by assumption. cbn [details_from map].
      now rewrite <- !app_assoc.
    + rewrite notify_not_due by assumption. rewrite IH.
      now rewrite filter_cons_False by assumption.
Qed.

Lemma details_from_length env today rows : forall outbox,
  length (details_from env today outbox rows) = length rows.
Proof. induction rows; intros; cbn; [reflexivity|now rewrite IHrows]. Qed.

Lemma details_from_lookup env today rows : forall outbox k row,
  rows !! k = Some row ->
  details_from env today outbox rows !! k =
    Some (detail_of today row
            (resend env (outbox ++ take k (map (request_of today) rows))
                    (request_of today row))).
Proof.
  induction rows as [|r rows IH]; intros outbox k row Hk; [discriminate|].
  destruct k as [|k]; cbn in *.
  - injection Hk as ->. now rewrite app_nil_r.
  - rewrite (IH _ _ _ Hk). now rewrite <- app_assoc.
Qed.

Lemma details_from_Forall env today (P : Notification -> Prop) rows : forall outbox,
  (forall row o, row ∈ rows -> P (detail_of today row o)) ->
  Forall P (details_from env today outbox rows).
Proof.
  induction rows as [|r rows IH]; intros outbox HP; cbn; constructor.
  - apply HP. left.
  - apply IH. intros row o Hin. apply HP. now right.
Qed.

Lemma handler_options env db :
  handler env db "OPTIONS" = (mkResponse Null 200 corsHeaders, []).
Proof. reflexivity. Qed.

Lemma handler_query_failed env db method e :
  method <> "OPTIONS" -> query_error env = Some e ->
  handler env db method =
    (mkResponse (Failure e false) 500
       (corsHeaders ++ [("Content-Type", "application/json")]), []).
Proof.
  intros Hm He. unfold handler, query.
  rewrite bool_decide_eq_false_2 by assumption. now rewrite He.
Qed.

Lemma handler_query_ok env db method :
  method <> "OPTIONS" -> query_error env = None ->
  handler env db method =
    let rows := checked env db in
    let ds := details_from env (now env) [] (filter (due (now env)) rows) in
    (mkResponse
       (Summary true (length rows) (count_status "sent" ds)
                (count_status "failed" ds) ds)
       200 (corsHeaders ++ [("Content-Type", "application/json")]),
     map (request_of (now env)) (filter (due (now env)) rows)).
Proof.
  intros Hm He. unfold handler, query.
  rewrite bool_decide_eq_false_2 by assumption. rewrite He.
  cbn [default]. fold (in30Days (now env)). fold (checked env db).
  rewrite foldl_notify. reflexivity.
Qed.

Lemma elem_of_checked env db id l :
  (id, l) ∈ checked env db <->
  licenses db !! id = Some l
  /\ JS.toISODate (now env) <= License.expiry_date l <= JS.toISODate (now env) + 30
  /\ License.notification_email l <> None.
Proof.
  unfold checked. rewrite list_elem_of_filter, elem_of_map_to_list.
  unfold selected. cbn [snd]. rewrite in30Days_date.
  rewrite <- not_eq_None_Some. tauto.
Qed.

Lemma checked_days env db id l :
  (id, l) ∈ checked env db ->
  daysUntilExpiry (now env) l = License.expiry_date l - JS.toISODate (now env)
  /\ 0 <= daysUntilExpiry (now env) l <= 30.
Proof.
  rewrite elem_of_checked. intros (_ & Hwin & _).
  unfold daysUntilExpiry. rewrite ceil_days_calendar. lia.
Qed.

Lemma due_of_checked env row :
  selected (now env) (in30Days (now env)) row.2 ->
  (due (now env) row <-> JS.truthy (License.notification_email row.2) = true).
Proof.
  unfold selected, due. rewrite in30Days_date. intros (Hlo & Hhi & _).
  unfold daysUntilExpiry. rewrite ceil_days_calendar.
  destruct (urgency_of_cases (License.expiry_date row.2 - JS.toISODate (now env)))
    as [[? ->]|[[? ->]|[[? ->]|[[? ->]|[? ->]]]]]; cbn [fst]; try tauto; lia.
Qed.

(** Among the rows the query returns, a message is attempted exactly for
    those whose email is not the empty text. *)
Lemma due_rows_addressed env db :
  filter (due (now env)) (checked env db)
  = filter (fun r : string * License.t =>
              JS.truthy (License.notification_email r.2) = true) (checked env db).
Proof.
  unfold checked. rewrite !list_filter_filter.
  apply list_filter_iff. intros r. split; intros [H1 H2]; split; try assumption.
  - now apply (due_of_checked env r H2).
  - now apply (due_of_checked env r H2).
Qed.

Lemma details_from_Forall2 env today (P : string * License.t -> Notification -> Prop)
    rows : forall outbox,
  (forall row o, row ∈ rows -> P row (detail_of today row o)) ->
  Forall2 P rows (details_from env today outbox rows).
Proof.
  induction rows as [|r rows IH]; intros outbox HP; cbn; constructor.
  - apply HP. left.
  - apply IH. intros row o Hin. apply HP. now right.
Qed.

(** C3: when the query does not fail it returns exactly the licenses of
    the table whose expiry day lies between the day of [today] and thirty
    days later, both included, and whose notification email is not null;
    neither [payment_status] nor the notification preferences take part;
    and each returned license, by its days until expiry, is URGENT up to
    3, HIGH from 4 to 7, MEDIUM from 8 to 15 and LOW from 16 to 30, one
    tier and no other.  The answer of the handler shows it: it counts the
    returned licenses as checked, and it reports, in order, one detail for
    each returned license that has an address, with the id and the email
    of that license, its days until expiry and the tier of those days. *)
Theorem sweep_selection_and_tiers env db method :
  query_error env = None ->
  let today := now env in
  query env today (in30Days today) db = (Some (checked env db), None)
  /\ (forall id l, (id, l) ∈ checked env db <->
        licenses db !! id = Some l
        /\ JS.toISODate today <= License.expiry_date l <= JS.toISODate today + 30
        /\ License.notification_email l <> None)
  /\ (forall l paid,
        selected today (in30Days today) l <->
        selected today (in30Days today)
          (License.apply (License.mkUpdate None (Some paid)) l))
  /\ (forall preferences,
        handler env (mkDatabase (licenses db) (payment_history db) preferences) method
        = handler env db method)
  /\ (forall id l, (id, l) ∈ checked env db ->
        let d := daysUntilExpiry today l in
        d = License.expiry_date l - JS.toISODate today
        /\ 0 <= d <= 30
        /\ (urgency_of d = (true, "URGENT") <-> d <= 3)
        /\ (urgency_of d = (true, "HIGH") <-> 3 < d <= 7)
        /\ (urgency_of d = (true, "MEDIUM") <-> 7 < d <= 15)
        /\ (urgency_of d = (true, "LOW") <-> 15 < d <= 30))
  /\ Forall (fun n => (true, urgency n) = urgency_of (days_until_expiry n))
            (details_of (handler env db method).1)
  /\ (method <> "OPTIONS" ->
      exists details,
        body (handler env db method).1
        = Summary true (length (checked env db)) (count_status "sent" details)
            (count_status "failed" details) details
        /\ Forall2
             (fun (row : string * License.t) n =>
                license_id n = row.1
                /\ email n = License.notification_email row.2
                /\ days_until_expiry n
                   = License.expiry_date row.2 - JS.toISODate today
                /\ (true, urgency n)
                   = urgency_of (License.expiry_date row.2 - JS.toISODate today))
             (filter (fun r : string * License.t =>
                        JS.truthy (License.notification_email r.2) = true)
                     (checked env db))
             details).
Proof.
  intros He today.
  split; [unfold query; now rewrite He|].
  split; [intros; apply elem_of_checked|].
  split; [intros l paid; unfold selected; cbn; tauto|].
  split; [reflexivity|].
  split.
  - intros id l Hin d. destruct (checked_days _ _ _ _ Hin) as [Hd Hr].
    fold today in Hd, Hr. fold d in Hd, Hr.
    split; [exact Hd|]. split; [exact Hr|].
    destruct (urgency_of_cases d) as [[? ->]|[[? ->]|[[? ->]|[[? ->]|[? ->]]]]];
      repeat split; intros; first [discriminate | lia | reflexivity].
  - split.
    + destruct (decide (method = "OPTIONS")) as [->|Hm]; [constructor|].
      rewrite handler_query_ok by assumption. cbv zeta. cbn [fst details_of body].
      apply details_from_Forall. intros [id l] o Hin.
      apply list_elem_of_filter in Hin as [Hdue _]. unfold due in Hdue.
      unfold detail_of. cbn [urgency days_until_expiry snd] in *.
      destruct (urgency_of (daysUntilExpiry (now env) l)) as [b u]. cbn in *.
      apply andb_true_iff in Hdue as [-> _]. reflexivity.
    + intros Hm. rewrite handler_query_ok by assumption. cbv zeta. cbn [fst body].
      eexists. split; [reflexivity|].
      rewrite <- due_rows_addressed. apply details_from_Forall2.
      intros [id l] o Hin. apply list_elem_of_filter in Hin as [Hdue Hin].
      destruct (checked_days _ _ _ _ Hin) as [Hd _]. subst today.
      unfold due in Hdue. unfold detail_of.
      cbn [license_id email days_until_expiry urgency fst snd] in *.
      rewrite <- Hd.
      destruct (urgency_of (daysUntilExpiry (now env) l)) as [b u]. cbn in *.
      apply andb_true_iff in Hdue as [-> _]. repeat split.
Qed.

Lemma count_status_split ns :
  Forall (fun n => status n = "sent" \/ status n = "failed") ns ->
  (count_status "sent" ns + count_status "failed" ns)%nat = length ns.
Proof.
  unfold count_status. induction 1 as [|n ns Hn _ IH]; [reflexivity|].
  destruct Hn as [Hn|Hn].
  - rewrite (filter_cons_True (fun n => status n = "sent")) by assumption.
    rewrite (filter_cons_False (fun n => status n = "failed"))
      by (rewrite Hn; discriminate).
    cbn [length]. lia.
  - rewrite (filter_cons_False (fun n => status n = "sent"))
      by (rewrite Hn; discriminate).
    rewrite (filter_cons_True (fun n => status n = "failed")) by assumption.
    cbn [length]. lia.
Qed.

(** C4: each due license gets its own attempt, in order, whatever became
    of the attempts before it: an attempt that throws is recorded as a
    detail with status failed and the message of the error, one that
    returns as a detail with status sent, and the provider receives the
    requests of all due licenses.  When the query does not fail the answer
    is 200 with [success: true], the number of licenses checked, the two
    counts and the details; the answer is 500 exactly when the query
    fails, and then it is [{error, success: false}] and the provider has
    received nothing. *)
Theorem sweep_sends_are_independent env db method :
  method <> "OPTIONS" ->
  let today := now env in
  let due_rows := filter (due today) (checked env db) in
  let requests := map (request_of today) due_rows in
  let response := (handler env db method).1 in
  let outbox := (handler env db method).2 in
  (query_error env = None ->
     exists details,
       response =
         mkResponse
           (Summary true (length (checked env db)) (count_status "sent" details)
                    (count_status "failed" details) details)
           200 (corsHeaders ++ [("Content-Type", "application/json")])
       /\ outbox = requests
       /\ length details = length due_rows
       /\ forall k row, due_rows !! k = Some row ->
            exists n, details !! k = Some n
              /\ license_id n = row.1
              /\ match resend env (take k requests) (request_of today row) with
                 | Threw message => status n = "failed" /\ error n = Some message
                 | Returned data_id => status n = "sent" /\ email_id n = data_id
                 end)
  /\ (http_status response = 500 <-> query_error env <> None)
  /\ (forall e, query_error env = Some e ->
        response =
          mkResponse (Failure e false) 500
            (corsHeaders ++ [("Content-Type", "application/json")])
        /\ outbox = []).
Proof.
  intros Hm today due_rows requests response outbox.
  subst response outbox. split; [|split].
  - intros He. rewrite handler_query_ok by assumption. cbv zeta. cbn [fst snd].
    eexists. split; [reflexivity|]. split; [reflexivity|].
    split; [apply details_from_length|].
    intros k row Hk. fold today. fold due_rows.
    rewrite (details_from_lookup _ _ _ _ _ _ Hk). cbn [app].
    eexists. split; [reflexivity|]. split; [reflexivity|].
    fold requests. unfold detail_of. cbn.
    destruct (resend env (take k requests) (request_of today row)); split; reflexivity.
  - destruct (query_error env) as [e|] eqn:He.
    + rewrite (handler_query_failed _ _ _ _ Hm He). cbn. split; [discriminate|reflexivity].
    + rewrite handler_query_ok by assumption. cbv zeta. cbn.
      split; [discriminate|congruence].
  - intros e He. rewrite (handler_query_failed _ _ _ _ Hm He). split; reflexivity.
Qed.

(** C10: in an answer 200 to a request that is not a pre-flight, the count
    of sent and the count of failed add up to the number of details, every
    detail has status sent or failed and an email that is neither null nor
    empty, and the number of licenses checked is at least the number of
    details. *)
Theorem sweep_summary_is_consistent env db method :
  method <> "OPTIONS" ->
  http_status (handler env db method).1 = 200 ->
  exists checked_licenses notifications_sent notifications_failed details,
    body (handler env db method).1 =
      Summary true checked_licenses notifications_sent notifications_failed details
    /\ (notifications_sent + notifications_failed)%nat = length details
    /\ Forall (fun n => (status n = "sent" \/ status n = "failed")
                        /\ exists address, email n = Some address
                                           /\ address <> EmptyString) details
    /\ (length details <= checked_licenses)%nat.
Proof.
  intros Hm H200.
  destruct (query_error env) as [e|] eqn:He.
  { rewrite (handler_query_failed _ _ _ _ Hm He) in H200. discriminate. }
  clear H200. rewrite handler_query_ok by assumption. cbv zeta. cbn [fst body].
  set (rows := checked env db).
  set (ds := details_from env (now env) [] (filter (due (now env)) rows)).
  assert (Hall : Forall (fun n => (status n = "sent" \/ status n = "failed")
                        /\ exists address, email n = Some address
                                           /\ address <> EmptyString) ds).
  { apply details_from_Forall. intros [id l] o Hin.
    apply list_elem_of_filter in Hin as [Hdue _]. unfold due in Hdue.
    apply andb_true_iff in Hdue as [_ Hmail]. cbn [snd] in Hmail.
    unfold detail_of. cbn. split; [destruct o; auto|].
    destruct (License.notification_email l) as [[|c a]|]; try discriminate.
    eexists. split; [reflexivity|discriminate]. }
  exists (length rows), (count_status "sent" ds), (count_status "failed" ds), ds.
  split; [reflexivity|]. split; [|split; [exact Hall|]].
  - apply count_status_split. eapply Forall_impl; [exact Hall|]. cbn. tauto.
  - subst ds. rewrite details_from_length. apply length_filter.
Qed.

End SweepProofs.

(** ** CSV export *)

Section ExportProofs.

Import LicenseTable.

Lemma split_no_sep sep s :
  has_char sep s = false -> JS.split sep s = [s].
Proof.
  induction s as [|c s IH]; simpl; [reflexivity|].
  intros H. apply orb_false_iff in H as [Hc Hs].
  rewrite Hc, (IH Hs). reflexivity.
Qed.


Lemma csvContent_lines licenses :
  csvContent licenses =
    JS.join (String JS.newline EmptyString)
      (csv_line headers :: map (fun r => csv_line (map ToString (csvData r))) licenses).
Proof.
  unfold csvContent, csv_line, quoted. cbn [map]. rewrite !map_map.
  reflexivity.
Qed.


End ExportProofs.

(** ** CSV import *)

Section ImportProofs.

Import ImportLicenseDialog.

Variable Date_parse : string -> option Z.
Variable DATE_in : string -> option Z.

Lemma elem_of_when b m msg : msg ∈ when b m -> msg = m.
Proof.
  destruct b; cbn; intros H.
  - now apply list_elem_of_singleton in H.
  - now apply elem_of_nil in H.
Qed.

Lemma validateRow_messages row index msg :
  msg ∈ validateRow Date_parse row index ->
  exists what, msg = message index what.
Proof.
  unfold validateRow. cbv zeta. rewrite !elem_of_app.
  intros H. decompose [or] H; clear H;
    match goal with Hin : _ ∈ when _ _ |- _ =>
      apply elem_of_when in Hin; eexists; exact Hin
    end.
Qed.

(** The loop that pushes the messages of each row visits every row. *)
Lemma foldl_push {A B} (f : nat -> A -> list B) (rows : list A) :
  forall (h : nat -> nat) (acc : list B),
    foldl (fun acc (ir : nat * A) => acc ++ f ir.1 ir.2) acc
          (imap (fun i x => (h i, x)) rows)
    = acc ++ concat (imap (fun i x => f (h i) x) rows).
Proof.
  induction rows as [|x rows IH]; intros h acc; cbn.
  - now rewrite app_nil_r.
  - rewrite (IH (h ∘ S)). now rewrite app_assoc.
Qed.

Lemma allErrors_concat rows :
  allErrors Date_parse rows
  = concat (imap (fun i row => validateRow Date_parse row i) rows).
Proof.
  unfold allErrors.
  apply (foldl_push (fun i row => validateRow Date_parse row i) rows (fun i => i) []).
Qed.

Lemma concat_imap_nil {A B} (f : nat -> A -> list B) (rows : list A) i row :
  rows !! i = Some row -> f i row <> [] -> concat (imap f rows) <> [].
Proof.
  revert f i. induction rows as [|x rows IH]; intros f i Hi Hne; [discriminate|].
  cbn. destruct i as [|i]; cbn in Hi.
  - injection Hi as ->. destruct (f 0%nat row); [congruence|discriminate].
  - intros Happ. apply app_eq_nil in Happ as [_ Hrest].
    exact (IH (f ∘ S) i Hi Hne Hrest).
Qed.

(** C5, amended: every data row is validated and the messages of all rows
    are collected, in order; a message about the data row at 0-based index
    i starts with Row i+2, the line of that row in the trimmed text, whose
    line 1 is the header; and when some
    row has a message nothing is inserted: the store is left as it was, and
    the dialog holds the whole list of messages and shows no toast. *)
Theorem import_is_all_or_nothing env text user_id categories locations errors0 db :
  let rows := parseCSV text in
  let r := handleImport Date_parse DATE_in env (Some text) (Some user_id)
             categories locations errors0 db in
  allErrors Date_parse rows
    = concat (imap (fun i row => validateRow Date_parse row i) rows)
  /\ (forall i row msg,
        rows !! i = Some row -> msg ∈ validateRow Date_parse row i ->
        exists what, msg = "Row " +:+ pretty (i + 2)%nat +:+ ": " +:+ what)
  /\ ((exists i row, rows !! i = Some row /\ validateRow Date_parse row i <> []) ->
        db_after r = db
        /\ licenses (db_after r) = licenses db
        /\ errors r = allErrors Date_parse rows
        /\ errors r <> []
        /\ toast r = None).
Proof.
  intros rows r. split; [apply allErrors_concat|]. split.
  - intros i row msg _ Hmsg. exact (validateRow_messages _ _ _ Hmsg).
  - intros (i & row & Hi & Hne).
    assert (Hall : allErrors Date_parse rows <> []).
    { rewrite allErrors_concat.
      exact (concat_imap_nil (fun i row => validateRow Date_parse row i)
               rows i row Hi Hne). }
    subst r. unfold handleImport. fold rows.
    destruct (allErrors Date_parse rows) as [|m ms] eqn:E; [congruence|].
    cbn. repeat split. discriminate.
Qed.

End ImportProofs.

(** C5 as worded fails: for the file whose only data row is the first one
    and lacks its amount, the one message says Row 2, and the 1-based index
    of that row plus two is 3. *)
Lemma import_row_number_counterexample :
  ImportLicenseDialog.errors
    (ImportLicenseDialog.handleImport Samples.Date_parse Samples.date_only
       Samples.browser (Some Samples.csv_missing_amount) (Some "user-1")
       [] [] [] Samples.db)
    = ["Row 2: Valid amount is required"]
  /\ ~ numbered_as_specified Samples.Date_parse
         (ImportLicenseDialog.parseCSV Samples.csv_missing_amount).
Proof.
  split; [vm_compute; reflexivity|].
  intros Hspec.
  destruct (ImportLicenseDialog.parseCSV Samples.csv_missing_amount) as [|row rest] eqn:Erows;
    [vm_compute in Erows; discriminate|].
  destruct (Hspec 0%nat row "Row 2: Valid amount is required") as [what Hwhat].
  - reflexivity.
  - assert (Hrow : [row] = take 1 (ImportLicenseDialog.parseCSV Samples.csv_missing_amount))
      by (rewrite Erows; reflexivity).
    injection Hrow as ->. vm_compute. left.
  - vm_compute in Hwhat. discriminate.
Qed.

(** ** The statements on the sample data *)

Lemma updateStatus_paid_creates_payment_witness :
  payment_history
    (db_after (PaymentStatusBadge.updateStatus Samples.browser "lic-1"
                 (Some "Pending") "Paid" Samples.db))
  = [ {| Payment.license_id := "lic-1";
         Payment.amount := JS.Finite 9900 (-2);
         Payment.payment_date := 20067;
         Payment.payment_method := None;
         Payment.transaction_id := None;
         Payment.notes := Some PaymentStatusBadge.auto_note;
         Payment.created_by := "user-1" |} ].
Proof.
  destruct (updateStatus_paid_creates_payment Samples.browser "lic-1" Samples.db
              Samples.office "user-1") as (_ & _ & _ & Hok & _).
  - vm_compute. reflexivity.
  - discriminate.
  - reflexivity.
  - reflexivity.
  - reflexivity.
  - exact (proj1 (Hok eq_refl)).
Defined.

Lemma updateStatus_payment_status_witness :
  exists l',
    licenses (db_after (PaymentStatusBadge.updateStatus Samples.browser "lic-2"
                          (Some "Paid") "Cancelled" Samples.db)) !! "lic-2" = Some l'
    /\ License.status l' = Some "Cancelled"
    /\ License.payment_status l' = false.
Proof.
  destruct (updateStatus_payment_status Samples.browser "lic-2" (Some "Paid")
              "Cancelled" Samples.db Samples.adobe)
    as (l' & Hrow & Hst & _ & Hoff & _).
  - vm_compute. reflexivity.
  - reflexivity.
  - exists l'. split; [exact Hrow|]. split; [exact Hst|].
    exact (proj2 (Hoff (or_intror eq_refl))).
Defined.

Lemma updateStatus_same_status_no_payment_witness :
  payment_history
    (db_after (PaymentStatusBadge.updateStatus Samples.browser "lic-2"
                 (Some "Paid") "Paid" Samples.db)) = [].
Proof.
  exact (proj1 (updateStatus_same_status_no_payment Samples.browser "lic-2"
                  (Some "Paid") "Paid" Samples.db eq_refl)).
Defined.

Lemma addPayment_forces_paid_witness :
  licenses
    (db_after (PaymentHistoryDialog.addPayment Samples.browser (Some "user-1")
                 "lic-1" Samples.payment_form Samples.db)) !! "lic-1"
  = Some (License.apply PaymentHistoryDialog.paid_update Samples.office).
Proof.
  destruct (addPayment_forces_paid Samples.browser "user-1" "lic-1"
              Samples.payment_form (20067 * JS.msPerDay) Samples.db Samples.office)
    as (Hrow & _).
  - vm_compute. reflexivity.
  - discriminate.
  - reflexivity.
  - reflexivity.
  - reflexivity.
  - exact Hrow.
Defined.

Lemma getExpiryStatus_tiers_witness :
  tier_rank (LicenseTable.status (LicenseTable.getExpiryStatus (now Samples.browser) 20070))
  <= tier_rank (LicenseTable.status (LicenseTable.getExpiryStatus (now Samples.browser) 20088)).
Proof.
  destruct (getExpiryStatus_tiers (now Samples.browser) 20070 (now Samples.browser) 20088)
    as (_ & _ & _ & _ & _ & _ & Hmono).
  apply Hmono. vm_compute. discriminate.
Defined.

Lemma sweep_selection_and_tiers_witness :
  CheckLicenseExpiry.urgency_of
    (CheckLicenseExpiry.daysUntilExpiry (CheckLicenseExpiry.now Samples.edge) Samples.adobe)
  = (true, "URGENT")
  /\ exists details,
       CheckLicenseExpiry.body
         (CheckLicenseExpiry.handler Samples.edge Samples.db "POST").1
       = CheckLicenseExpiry.Summary true 2
           (CheckLicenseExpiry.count_status "sent" details)
           (CheckLicenseExpiry.count_status "failed" details) details
       /\ length details = 2%nat.
Proof.
  destruct (sweep_selection_and_tiers Samples.edge Samples.db "POST" eq_refl)
    as (_ & Hsel & _ & _ & Htier & _ & Hanswer).
  split.
  - assert (Hin : ("lic-2", Samples.adobe) ∈ Sweep.checked Samples.edge Samples.db).
    { apply Hsel. split; [vm_compute; reflexivity|].
      split; [vm_compute; split; discriminate|discriminate]. }
    destruct (Htier _ _ Hin) as (_ & _ & Hurgent & _).
    apply Hurgent. vm_compute. discriminate.
  - destruct Hanswer as (details & Hbody & Hrows); [discriminate|].
    exists details. split; [exact Hbody|].
    apply Forall2_length in Hrows. rewrite <- Hrows. vm_compute. reflexivity.
Defined.

Lemma sweep_sends_are_independent_witness :
  exists details,
    (CheckLicenseExpiry.handler Samples.edge Samples.db "POST").1
    = CheckLicenseExpiry.mkResponse
        (CheckLicenseExpiry.Summary true
           (length (Sweep.checked Samples.edge Samples.db))
           (CheckLicenseExpiry.count_status "sent" details)
           (CheckLicenseExpiry.count_status "failed" details) details)
        200
        (CheckLicenseExpiry.corsHeaders ++ [("Content-Type", "application/json")])
    /\ length (CheckLicenseExpiry.handler Samples.edge Samples.db "POST").2
       = length details.
Proof.
  destruct (sweep_sends_are_independent Samples.edge Samples.db "POST") as (Hok & _).
  - discriminate.
  - destruct (Hok eq_refl) as (details & Hresp & Hout & Hlen & _).
    exists details. split; [exact Hresp|].
    rewrite Hout, Hlen. apply length_map.
Defined.

Lemma sweep_summary_is_consistent_witness :
  exists checked_licenses notifications_sent notifications_failed details,
    CheckLicenseExpiry.body (CheckLicenseExpiry.handler Samples.edge Samples.db "POST").1
    = CheckLicenseExpiry.Summary true checked_licenses notifications_sent
        notifications_failed details
    /\ (notifications_sent + notifications_failed)%nat = length details.
Proof.
  destruct (sweep_summary_is_consistent Samples.edge Samples.db "POST")
    as (c & s & f & ds & Hbody & Hsum & _).
  - discriminate.
  - vm_compute. reflexivity.
  - exists c, s, f, ds. split; [exact Hbody|exact Hsum].
Defined.

Lemma import_is_all_or_nothing_witness :
  ImportLicenseDialog.db_after
    (ImportLicenseDialog.handleImport Samples.Date_parse Samples.date_only
       Samples.browser (Some Samples.csv_two_rows) (Some "user-1") [] [] []
       Samples.db)
  = Samples.db.
Proof.
  destruct (import_is_all_or_nothing Samples.Date_parse Samples.date_only
              Samples.browser Samples.csv_two_rows "user-1" [] [] [] Samples.db)
    as (_ & _ & Hbad).
  apply Hbad.
  exists 1%nat.
  destruct (ImportLicenseDialog.parseCSV Samples.csv_two_rows !! 1%nat)
    as [row|] eqn:Hrow; [|vm_compute in Hrow; discriminate].
  exists row. split; [reflexivity|].
  intros Hnil.
  assert (Hrows : ImportLicenseDialog.validateRow Samples.Date_parse
            (default ∅ (ImportLicenseDialog.parseCSV Samples.csv_two_rows !! 1%nat)) 1
          = [])
    by (rewrite Hrow; exact Hnil).
  vm_compute in Hrows. discriminate.
Defined.

(** * Further properties *)

(** ** Status changes and payments *)

Section StatusEdges.

Import PaymentStatusBadge.

Lemma database_eta db :
  mkDatabase (licenses db) (payment_history db) (notification_preferences db) = db.
Proof. now destruct db. Qed.

(** X1: The status update on an id the table does not have changes nothing in
    the store, whatever the store answers; when the store reports no error
    the user is nevertheless told of a success. *)
Theorem updateStatus_unknown_license env licenseId currentStatus newStatus db :
  licenses db !! licenseId = None ->
  let r := updateStatus env licenseId currentStatus newStatus db in
  db_after r = db
  /\ console_warn r = []
  /\ (licenses_update_error env = None ->
      exists d, toast r = Some (mkToast "Success" d None)).
Proof.
  intros Hnone r. subst r. unfold updateStatus, Supabase.licenses_update.
  destruct (licenses_update_error env) as [e|]; [cbn; repeat split; discriminate|].
  rewrite alter_id by (intros x Hx; congruence).
  rewrite database_eta.
  unfold Supabase.licenses_select_amount.
  destruct (becomes_paid currentStatus newStatus).
  - destruct (licenses_select_error env); cbn;
      [|rewrite Hnone; cbn]; repeat split; eauto.
  - cbn. repeat split; eauto.
Qed.

(** X2: When the amount cannot be read back after a change to Paid, the
    license is updated, no payment record is written and nothing is
    logged, yet the toast announces that the payment history was created. *)
Theorem updateStatus_amount_unreadable env licenseId db l e :
  licenses db !! licenseId = Some l ->
  License.status l <> Some "Paid" ->
  licenses_update_error env = None ->
  licenses_select_error env = Some e ->
  let r := updateStatus env licenseId (License.status l) "Paid" db in
  licenses (db_after r) !! licenseId = Some (License.apply (updateData "Paid") l)
  /\ payment_history (db_after r) = payment_history db
  /\ console_warn r = []
  /\ toast r = Some (mkToast "Success" "Status updated and payment history created!" None).
Proof.
  intros Hl Hst Hup Hsel r. subst r.
  unfold updateStatus, Supabase.licenses_update. rewrite Hup.
  assert (Hbp : becomes_paid (License.status l) "Paid" = true).
  { unfold becomes_paid. rewrite bool_decide_eq_true_2 by reflexivity.
    now rewrite bool_decide_eq_false_2 by assumption. }
  rewrite Hbp. unfold Supabase.licenses_select_amount. rewrite Hsel. cbn.
  rewrite lookup_alter_eq, Hl. repeat split.
Qed.

(** X3: The status update never adds or removes a license, touches no license
    but the one it names, never drops a payment record, and keeps every
    payment record pointing at a license of the table. *)
Theorem updateStatus_keeps_references env licenseId currentStatus newStatus db :
  let r := updateStatus env licenseId currentStatus newStatus db in
  dom (licenses (db_after r)) = dom (licenses db)
  /\ (forall id, id <> licenseId -> licenses (db_after r) !! id = licenses db !! id)
  /\ payment_history db `prefix_of` payment_history (db_after r)
  /\ (references_hold db -> references_hold (db_after r)).
Proof.
  intros r. subst r. unfold updateStatus, Supabase.licenses_update.
  destruct (licenses_update_error env) as [e|].
  { cbn. repeat split; auto. }
  set (table := alter (License.apply (updateData newStatus)) licenseId (licenses db)).
  assert (Hdom : dom table = dom (licenses db)) by apply dom_alter_L.
  assert (Hother : forall id, id <> licenseId -> table !! id = licenses db !! id)
    by (intros id Hid; now apply lookup_alter_ne).
  assert (Hkeep : forall db',
            licenses db' = table -> payment_history db' = payment_history db ->
            references_hold db -> references_hold db').
  { intros db' Ht Hp Href p Hin. rewrite Ht. rewrite Hp in Hin.
    apply elem_of_dom. rewrite Hdom. apply elem_of_dom. now apply Href. }
  unfold Supabase.licenses_select_amount, Supabase.payment_history_insert.
  destruct (becomes_paid currentStatus newStatus);
    [destruct (licenses_select_error env)|];
    cbn [licenses]; try (cbn; repeat split; eauto; fail).
  destruct (table !! licenseId) as [l'|] eqn:Hrow; cbn;
    [|repeat split; eauto; fail].
  destruct (payment_insert_error env); cbn; [repeat split; eauto; fail|].
  split; [exact Hdom|]. split; [exact Hother|].
  split; [now apply prefix_app_r|].
  intros Href p Hin. cbn in *. apply elem_of_app in Hin as [Hin|Hin].
  - apply elem_of_dom. rewrite Hdom. apply elem_of_dom. now apply Href.
  - apply list_elem_of_singleton in Hin as ->. cbn. now rewrite Hrow.
Qed.

End StatusEdges.

Section PaymentEdges.

Import PaymentHistoryDialog.

(** X4: When the store takes the payment record but refuses the update of the
    license that follows, the record stays, the license keeps its status
    and its [payment_status], and the user is told of a success. *)
Theorem addPayment_update_unchecked env user_id licenseId form picked db e :
  amount form <> EmptyString ->
  payment_date form = Some picked ->
  payment_insert_error env = None ->
  licenses_update_error env = Some e ->
  let r := addPayment env (Some user_id) licenseId form db in
  licenses (db_after r) = licenses db
  /\ payment_history (db_after r)
     = payment_history db ++ [entered user_id licenseId form picked]
  /\ toast r = Some (mkToast "Success" "Payment record added successfully!" None).
Proof.
  intros Ham Hd Hins Hup r. subst r. unfold addPayment, entered. rewrite Hd.
  destruct (amount form) as [|c rest] eqn:Ea; [congruence|].
  unfold Supabase.payment_history_insert, Supabase.licenses_update.
  rewrite Hins, Hup. cbn. repeat split.
Qed.

(** X5: In every case [addPayment] shows the success toast exactly when the
    payment history has gained the entered record, and otherwise leaves
    the whole store as it was; it never touches another license. *)
Theorem addPayment_success_iff_recorded env user licenseId form db :
  let r := addPayment env user licenseId form db in
  ((exists d, toast r = Some (mkToast "Success" d None)) <->
   length (payment_history (db_after r)) = S (length (payment_history db)))
  /\ ((forall d, toast r <> Some (mkToast "Success" d None)) -> db_after r = db)
  /\ (forall id, id <> licenseId -> licenses (db_after r) !! id = licenses db !! id).
Proof.
  intros r. subst r. unfold addPayment.
  destruct user as [user_id|]; [|cbn; split; [split; [intros [d Hd]; discriminate|lia]|auto]].
  destruct (amount form) as [|c rest]; [cbn; split; [split; [intros [d Hd]; discriminate|lia]|auto]|].
  destruct (payment_date form) as [picked|]; [|cbn; split; [split; [intros [d Hd]; discriminate|lia]|auto]].
  unfold Supabase.payment_history_insert, Supabase.licenses_update.
  destruct (payment_insert_error env) as [e|]; cbn.
  { split; [split; [intros [d Hd]; discriminate|lia]|auto]. }
  destruct (licenses_update_error env) as [e|]; cbn.
  - split; [split; [intros _; rewrite length_app; cbn; lia|eauto]|].
    split; [intros Hno; now destruct (Hno "Payment record added successfully!")|auto].
  - split; [split; [intros _; rewrite length_app; cbn; lia|eauto]|].
    split; [intros Hno; now destruct (Hno "Payment record added successfully!")|].
    intros id Hid. now apply lookup_alter_ne.
Qed.

End PaymentEdges.

Section BadgeAndList.

Import PaymentStatusBadge StatusBadge.

(** X6: The badge of a status tells what choosing that status does to
    [payment_status]: the default variant (with the check icon) exactly for
    the statuses that set it to true, the destructive variant (with the
    cross icon) exactly for those that set it to false, and the secondary
    or outline variant exactly for those that leave it alone. *)
Theorem getStatusVariant_tells_payment_flag (status : string) :
  (getStatusVariant (Some status) = "default"
   <-> License.set_payment_status (updateData status) = Some true)
  /\ (getStatusVariant (Some status) = "destructive"
      <-> License.set_payment_status (updateData status) = Some false)
  /\ (getStatusVariant (Some status) = "secondary"
      \/ getStatusVariant (Some status) = "outline"
      <-> License.set_payment_status (updateData status) = None)
  /\ (getStatusIcon (Some status) = "CheckCircle"
      <-> getStatusVariant (Some status) = "default")
  /\ (getStatusIcon (Some status) = "XCircle"
      <-> getStatusVariant (Some status) = "destructive").
Proof.
  unfold getStatusVariant, getStatusIcon, updateData. cbn.
  destruct (decide (status = "Paid")) as [->|H1]; [cbn; intuition discriminate|].
  destruct (decide (status = "Confirmed")) as [->|H2]; [cbn; intuition discriminate|].
  destruct (decide (status = "Expired")) as [->|H3]; [cbn; intuition discriminate|].
  destruct (decide (status = "Cancelled")) as [->|H4]; [cbn; intuition discriminate|].
  rewrite !(bool_decide_eq_false_2 (Some status = Some _)) by congruence.
  rewrite !(bool_decide_eq_false_2 (status = _)) by congruence. cbn.
  destruct (bool_decide (Some status = Some "Pending")); intuition discriminate.
Qed.

Import PaymentList.

Lemma filter_license_app licenseId (l : list Payment.t) p :
  filter (fun q => Payment.license_id q = licenseId) (l ++ [p])
  = filter (fun q => Payment.license_id q = licenseId) l
    ++ (if decide (Payment.license_id p = licenseId) then [p] else []).
Proof.
  rewrite filter_app. reflexivity.
Qed.

(** X7: After a payment is added for one license, the list shown for that
    license contains the entered record and is one longer, while the list
    shown for any other license is what it was. *)
Theorem addPayment_shows_in_own_history env user_id licenseId form picked db shown other :
  PaymentHistoryDialog.amount form <> EmptyString ->
  PaymentHistoryDialog.payment_date form = Some picked ->
  payment_insert_error env = None ->
  other <> licenseId ->
  let db' := db_after (PaymentHistoryDialog.addPayment env (Some user_id) licenseId form db) in
  let before := (fetchPaymentHistory (Some user_id) None licenseId shown db).1 in
  let after := (fetchPaymentHistory (Some user_id) None licenseId shown db').1 in
  entered user_id licenseId form picked ∈ after
  /\ length after = S (length before)
  /\ (forall p, p ∈ before -> p ∈ after)
  /\ (fetchPaymentHistory (Some user_id) None other shown db').1
     = (fetchPaymentHistory (Some user_id) None other shown db).1.
Proof.
  intros Ham Hd Hins Hother db' before after.
  assert (Hhist : payment_history db'
                  = payment_history db ++ [entered user_id licenseId form picked]).
  { subst db'. unfold PaymentHistoryDialog.addPayment, entered. rewrite Hd.
    destruct (PaymentHistoryDialog.amount form) as [|c rest]; [congruence|].
    unfold Supabase.payment_history_insert, Supabase.licenses_update. rewrite Hins.
    destruct (licenses_update_error env); reflexivity. }
  subst before after. unfold fetchPaymentHistory. cbn [fst]. rewrite Hhist.
  rewrite !filter_license_app. cbn [Payment.license_id entered].
  rewrite decide_True by reflexivity. rewrite decide_False by congruence.
  rewrite app_nil_r.
  split; [|split; [|split; [|reflexivity]]].
  - rewrite merge_sort_Permutation. apply elem_of_app. right. left.
  - rewrite !merge_sort_Permutation. rewrite length_app. cbn. lia.
  - intros p. rewrite !merge_sort_Permutation. intros Hin.
    apply elem_of_app. now left.
Qed.

End BadgeAndList.

Section Deletion.

Import LicenseDelete.

(** X8: A deletion the store accepts removes the license and every payment
    record of it, and nothing else: the other licenses and the records of
    the other licenses stay, in order, and the payment records still all
    name a license of the table.  A deletion the store refuses changes
    nothing. *)
Theorem handleDelete_cascades error id db :
  let r := handleDelete error (Some id) db in
  (error = None ->
     licenses (db_after r) !! id = None
     /\ (forall p, p ∈ payment_history (db_after r) ->
                   Payment.license_id p <> id /\ p ∈ payment_history db)
     /\ (forall other, other <> id ->
           licenses (db_after r) !! other = licenses db !! other
           /\ filter (fun p => Payment.license_id p = other) (payment_history (db_after r))
              = filter (fun p => Payment.license_id p = other) (payment_history db))
     /\ (references_hold db -> references_hold (db_after r)))
  /\ (forall e, error = Some e ->
        db_after r = db /\ toast r = Some (mkToast "Error" e (Some "destructive"))).
Proof.
  intros r. subst r. unfold handleDelete, licenses_delete. split.
  - intros ->. cbn. split; [apply lookup_delete_eq|]. split; [|split].
    + intros p Hin. now apply list_elem_of_filter in Hin.
    + intros other Hother. split; [now apply lookup_delete_ne|].
      rewrite list_filter_filter. apply list_filter_iff. intros p. cbn.
      split; [tauto|]. intros Hp. split; [exact Hp|congruence].
    + intros Href p Hin. cbn in *. apply list_elem_of_filter in Hin as [Hne Hin].
      rewrite lookup_delete_ne by congruence. now apply Href.
  - intros e ->. cbn. split; reflexivity.
Qed.

End Deletion.

(** ** Reading a CSV text *)

Section Parsing.

Import ImportLicenseDialog.

Lemma assign_eq header value (row : gmap string string) :
  assign header value row
  = if decide (header = "__proto__") then row else <[header := value]> row.
Proof. reflexivity. Qed.

(** The object built for a line: its keys are the header names other than
    [__proto__], and the value of such a name is the cell at the last
    position the name has. *)
Lemma row_of_headers (g : nat -> string) (hs : list string) :
  let row := foldl (fun (row : gmap string string) (ih : nat * string) =>
                      assign ih.2 (g ih.1) row) ∅ (imap pair hs) in
  dom row = list_to_set (filter (fun h => h <> "__proto__") hs)
  /\ forall i h, h <> "__proto__" -> hs !! i = Some h ->
       (forall j, (i < j)%nat -> hs !! j <> Some h) -> row !! h = Some (g i).
Proof.
  induction hs as [|h' hs IH] using rev_ind; cbn zeta.
  - split; [cbn; now rewrite dom_empty_L|]. intros i h _ Hi. discriminate.
  - rewrite imap_app, foldl_app. cbn [imap foldl fst snd].
    rewrite Nat.add_0_r. cbn zeta in IH. destruct IH as [IHdom IHget].
    rewrite filter_app, assign_eq. split.
    + destruct (decide (h' = "__proto__")) as [Hp|Hp].
      * rewrite filter_cons_False by (intros H; now apply H).
        rewrite filter_nil, app_nil_r. exact IHdom.
      * rewrite filter_cons_True by exact Hp. rewrite filter_nil.
        rewrite dom_insert_L, IHdom, list_to_set_app_L, list_to_set_singleton_L.
        apply (comm_L (∪)).
    + intros i h Hh Hi Hlast.
      apply lookup_snoc_Some in Hi as [[Hlt Hi]|[-> ->]].
      * assert (h <> h').
        { intros ->. apply (Hlast (length hs) Hlt).
          rewrite lookup_app_r by lia. now rewrite Nat.sub_diag. }
        assert (Hrest : foldl (fun (row : gmap string string) (ih : nat * string) =>
                                 assign ih.2 (g ih.1) row) ∅ (imap pair hs) !! h
                        = Some (g i)).
        { apply IHget; [exact Hh|exact Hi|]. intros j Hj Hhj.
          apply (Hlast j Hj). now apply lookup_app_l_Some. }
        destruct (decide (h' = "__proto__")); [exact Hrest|].
        rewrite lookup_insert_ne by congruence. exact Hrest.
      * destruct (decide (h = "__proto__")); [contradiction|].
        now rewrite lookup_insert_eq.
Qed.

Lemma parseCSV_rows text :
  parseCSV text =
    map (fun line =>
           foldl (fun (row : gmap string string) (ih : nat * string) =>
                    assign ih.2 (JS.or_empty (cells line !! ih.1)) row)
                 ∅ (imap pair (header_names text)))
        (data_lines text).
Proof. reflexivity. Qed.

(** X9: Every line after the first gives one row, blank lines included.  The
    keys of a row are the header names other than [__proto__], whatever the
    line holds: the name [__proto__] gives the row no key.  Under any other
    name the row has the cell at the last position of that name in the
    header, without the blanks around it and without one leading and one
    trailing double quote, and the empty text when the line is too short. *)
Theorem parseCSV_cells text k line :
  data_lines text !! k = Some line ->
  length (parseCSV text) = length (data_lines text)
  /\ exists row,
       parseCSV text !! k = Some row
       /\ dom row = list_to_set (filter (fun h => h <> "__proto__") (header_names text))
       /\ row !! "__proto__" = None
       /\ forall i h,
            h <> "__proto__" ->
            header_names text !! i = Some h ->
            (forall j, (i < j)%nat -> header_names text !! j <> Some h) ->
            row !! h = Some (JS.or_empty (cells line !! i)).
Proof.
  intros Hline. rewrite parseCSV_rows. split; [apply length_map|].
  eexists. split; [rewrite list_lookup_fmap, Hline; reflexivity|].
  destruct (row_of_headers (fun i => JS.or_empty (cells line !! i))
              (header_names text)) as [Hdom Hget].
  cbn zeta in Hdom, Hget. split; [exact Hdom|]. split; [|exact Hget].
  apply not_elem_of_dom. rewrite Hdom, elem_of_list_to_set.
  intros Hin. apply list_elem_of_filter in Hin as [Hne _]. now apply Hne.
Qed.

End Parsing.

(** ** Validating a row *)

Section Validation.

Import ImportLicenseDialog.

Variable Date_parse : string -> option Z.

Lemma when_nil b m : when b m = [] <-> b = false.
Proof. destruct b; cbn; split; intros; congruence. Qed.

(** X10: A row gets no message exactly when its eight required columns are not
    empty, its amount starts with a number, its start and expiry dates are
    read by [Date.parse], and its renewal date is empty or read by
    [Date.parse]; the position of the row plays no part. *)
Theorem validateRow_accepts (row : gmap string string) index :
  validateRow Date_parse row index = [] <->
    Forall (fun name => JS.truthy (row !! name) = true) required_columns
    /\ JS.isNaN (JS.parseFloat (JS.or_empty (row !! "amount"))) = false
    /\ Date_parse (JS.or_empty (row !! "start_date")) <> None
    /\ Date_parse (JS.or_empty (row !! "expiry_date")) <> None
    /\ (JS.truthy (row !! "last_renewal_date") = true ->
        Date_parse (JS.or_empty (row !! "last_renewal_date")) <> None).
Proof.
  unfold validateRow, required_columns. cbv zeta.
  rewrite !app_nil, !when_nil, !Forall_cons, Forall_nil.
  rewrite !negb_false_iff, orb_false_iff, !andb_false_iff, negb_false_iff.
  rewrite !bool_decide_eq_false.
  split.
  - intros (? & ? & ? & [? ?] & ? & ? & Hs & He & Hbs & Hbe & Hbr).
    rewrite Hs in Hbs. rewrite He in Hbe.
    repeat split; try assumption.
    + destruct Hbs; [discriminate|assumption].
    + destruct Hbe; [discriminate|assumption].
    + intros Hr. rewrite Hr in Hbr. destruct Hbr; [discriminate|assumption].
  - intros ((? & ? & ? & ? & ? & ? & ? & ? & _) & ? & ? & ? & Hr).
    repeat split; try assumption; try (right; assumption).
    destruct (JS.truthy (row !! "last_renewal_date")); [right; auto|left; reflexivity].
Qed.

Lemma digit_is_plain c d :
  JS.digit_of c = Some d ->
  JS.is_whitespace c = false /\ c <> "-"%char /\ c <> "+"%char
  /\ c <> "I"%char.
Proof.
  destruct c as [[] [] [] [] [] [] [] []]; cbv; intros H;
    first [discriminate H | repeat split; discriminate].
Qed.

Lemma parseFloat_leading_digit c rest d :
  JS.digit_of c = Some d -> JS.isNaN (JS.parseFloat (String c rest)) = false.
Proof.
  intros Hd. destruct (digit_is_plain _ _ Hd) as (Hws & Hminus & Hplus & HI).
  unfold JS.parseFloat. cbn [JS.trimStart]. rewrite Hws.
  assert (Hsign : JS.strip_sign (String c rest) = (false, String c rest)).
  { unfold JS.strip_sign.
    destruct c as [[] [] [] [] [] [] [] []]; try reflexivity; congruence. }
  rewrite Hsign. unfold JS.unsigned_literal.
  assert (Hinf : String.prefix "Infinity" (String c rest) = false).
  { destruct c as [[] [] [] [] [] [] [] []]; try reflexivity; congruence. }
  rewrite Hinf. cbn [JS.leading_digits]. rewrite Hd.
  destruct (JS.leading_digits rest) as [ds r].
  destruct r as [|c' r']; [reflexivity|].
  destruct c' as [[] [] [] [] [] [] [] []]; try reflexivity.
  destruct (JS.leading_digits r') as [fp r2]. reflexivity.
Qed.

Lemma append_inv_head (p a b : string) : p +:+ a = p +:+ b -> a = b.
Proof. induction p; cbn; intros H; [assumption|injection H; auto]. Qed.

(** X11: An amount that starts with a digit is never reported, whatever text
    follows the digit. *)
Theorem validateRow_amount_prefix (row : gmap string string) index c rest d :
  row !! "amount" = Some (String c rest) ->
  JS.digit_of c = Some d ->
  message index "Valid amount is required" ∉ validateRow Date_parse row index.
Proof.
  intros Hamount Hd Hin. unfold validateRow in Hin. cbv zeta in Hin.
  rewrite Hamount in Hin. cbn [JS.truthy JS.or_empty negb orb] in Hin.
  rewrite (parseFloat_leading_digit _ _ _ Hd) in Hin. cbn [when] in Hin.
  rewrite !elem_of_app in Hin.
  decompose [or] Hin; clear Hin;
    match goal with
    | H : _ ∈ [] |- _ => now apply elem_of_nil in H
    | H : _ ∈ when ?b _ |- _ =>
        destruct b; cbn in H;
        [apply list_elem_of_singleton in H; unfold message in H;
         do 3 apply append_inv_head in H; discriminate H
        |now apply elem_of_nil in H]
    end.
Qed.

End Validation.

(** ** Importing and exporting *)

Section Importing.

Import ImportLicenseDialog.

Variable Date_parse : string -> option Z.
Variable DATE_in : string -> option Z.

(** Rows inserted under unused ids leave the table they are added to
    intact. *)
Lemma insert_fresh_all (news : list License.t) : forall table : gmap string License.t,
  let table' := foldl (fun (t : gmap string License.t) l =>
                         <[fresh_string "license" t := l]> t) table news in
  table ⊆ table'
  /\ size table' = (size table + length news)%nat
  /\ forall id l, table' !! id = Some l -> table !! id = Some l \/ l ∈ news.
Proof.
  induction news as [|a news IH]; intros table; cbn zeta; cbn [foldl].
  - split; [reflexivity|]. split; [cbn; lia|auto].
  - specialize (IH (<[fresh_string "license" table := a]> table)).
    cbn zeta in IH. destruct IH as (Hsub & Hsize & Hfrom).
    pose proof (fresh_string_fresh table "license") as Hfresh.
    split; [|split].
    + etransitivity; [|exact Hsub]. now apply insert_subseteq.
    + rewrite Hsize, map_size_insert_None by assumption. cbn. lia.
    + intros id l Hl. destruct (Hfrom id l Hl) as [Hin|Hin].
      * apply lookup_insert_Some in Hin as [[_ <-]|[_ Hin]]; [right; left|now left].
      * right. now right.
Qed.

Lemma stored_defaults p l :
  stored DATE_in p = Some l ->
  License.payment_status l = false
  /\ License.created_by l = created_by p
  /\ License.location_id l = location_id p
  /\ License.status l = Some (status p).
Proof.
  unfold stored. intros H.
  destruct (DATE_in (start_date p)); [|discriminate].
  destruct (DATE_in (expiry_date p)); [|discriminate].
  cbn in H.
  destruct (match last_renewal_date p with
            | Some d => Some <$> DATE_in d
            | None => Some None
            end); [|discriminate].
  cbn in H. injection H as <-. repeat split.
Qed.

(** X12: Whatever the file, the user and the answers of the store, an import
    leaves every license of the table as it was, and the payment records
    and the preferences too; it either changes nothing at all or adds one
    license per data row of the file; and every license it adds is unpaid,
    owned by the importing user and attached to the first location of the
    list, if there is one. *)
Theorem handleImport_keeps_existing env file user categories locations errors0 db :
  let r := handleImport Date_parse DATE_in env file user categories locations
             errors0 db in
  licenses db ⊆ licenses (db_after r)
  /\ payment_history (db_after r) = payment_history db
  /\ notification_preferences (db_after r) = notification_preferences db
  /\ (db_after r = db
      \/ exists text,
           file = Some text /\ errors r = []
           /\ size (licenses (db_after r))
              = (size (licenses db) + length (parseCSV text))%nat)
  /\ forall id l,
       licenses (db_after r) !! id = Some l -> licenses db !! id = None ->
       License.payment_status l = false
       /\ user = Some (License.created_by l)
       /\ License.location_id l = Location.id <$> head locations.
Proof.
  intros r. subst r. unfold handleImport.
  assert (Hsame : forall im,
            db_after im = db ->
            licenses db ⊆ licenses (db_after im)
            /\ payment_history (db_after im) = payment_history db
            /\ notification_preferences (db_after im) = notification_preferences db
            /\ (db_after im = db
                \/ exists text,
                     file = Some text /\ errors im = []
                     /\ size (licenses (db_after im))
                        = (size (licenses db) + length (parseCSV text))%nat)
            /\ forall id l,
                 licenses (db_after im) !! id = Some l -> licenses db !! id = None ->
                 License.payment_status l = false
                 /\ user = Some (License.created_by l)
                 /\ License.location_id l = Location.id <$> head locations).
  { intros im ->. repeat split; auto; intros; congruence. }
  destruct file as [text|]; [|now apply Hsame].
  destruct user as [user_id|]; [|now apply Hsame].
  destruct (allErrors Date_parse (parseCSV text)); [|now apply Hsame].
  unfold licenses_insert.
  destruct (licenses_insert_error env); [now apply Hsame|].
  destruct (mapM (stored DATE_in)
              (map (licenseToInsert categories locations user_id) (parseCSV text)))
    as [news|] eqn:Hnews; [|now apply Hsame].
  cbn [db_after errors licenses payment_history notification_preferences].
  destruct (insert_fresh_all news (licenses db)) as (Hsub & Hsize & Hfrom).
  cbn zeta in Hsub, Hsize, Hfrom.
  split; [exact Hsub|]. split; [reflexivity|]. split; [reflexivity|]. split.
  - right. exists text. split; [reflexivity|]. split; [reflexivity|].
    rewrite Hsize. apply length_mapM in Hnews. rewrite <- Hnews, length_map. reflexivity.
  - intros id l Hl Hnew. destruct (Hfrom id l Hl) as [Hold|Hin]; [congruence|].
    apply mapM_Some_1 in Hnews.
    apply list_elem_of_lookup in Hin as [k Hk].
    destruct (Forall2_lookup_r _ _ _ _ _ Hnews Hk) as (p & Hp & Hstored).
    apply list_lookup_fmap_Some in Hp as (row & -> & _).
    destruct (stored_defaults _ _ Hstored) as (Hpaid & Hby & Hloc & _).
    split; [exact Hpaid|]. split; [now rewrite Hby|exact Hloc].
Qed.

(** X13: A text that, once trimmed, has no line break (an empty file, a header
    alone) has no data rows: nothing is reported, and the store accepting
    the empty insertion, the import is announced as a success of 0
    licenses and the store is unchanged. *)
Theorem handleImport_no_data_rows env text user_id categories locations errors0 db :
  has_char JS.newline (JS.trim text) = false ->
  licenses_insert_error env = None ->
  parseCSV text = []
  /\ handleImport Date_parse DATE_in env (Some text) (Some user_id) categories
       locations errors0 db
     = mkImport db []
         (Some (mkToast "Success" "Successfully imported 0 license(s)!" None)).
Proof.
  intros Hnl Hok.
  assert (Hrows : parseCSV text = []).
  { unfold parseCSV. now rewrite (split_no_sep _ _ Hnl). }
  split; [exact Hrows|].
  unfold handleImport. rewrite Hrows. cbn [allErrors imap foldl map].
  unfold licenses_insert. rewrite Hok. cbn. now rewrite database_eta.
Qed.

End Importing.

Section ExportThenImport.

Import LicenseTable ImportLicenseDialog.

Lemma has_char_app c a b :
  has_char c (a +:+ b) = has_char c a || has_char c b.
Proof. induction a as [|x a IH]; simpl; [reflexivity|]. now rewrite IH, orb_assoc. Qed.

Lemma split_app_sep sep a b :
  has_char sep a = false ->
  JS.split sep (a +:+ String sep b) = a :: JS.split sep b.
Proof.
  induction a as [|c a IH]; simpl.
  - intros _. now rewrite Ascii.eqb_refl.
  - intros H. apply orb_false_iff in H as [Hc Ha]. rewrite Hc.
    now rewrite (IH Ha).
Qed.

Lemma split_join sep (xs : list string) :
  xs <> [] -> Forall (fun x => has_char sep x = false) xs ->
  JS.split sep (JS.join (String sep EmptyString) xs) = xs.
Proof.
  unfold JS.join. induction xs as [|x xs IH]; [congruence|]. intros _ Hall.
  apply Forall_cons in Hall as [Hx Hxs].
  destruct xs as [|y xs]; [now apply split_no_sep|].
  change (String.concat (String sep EmptyString) (x :: y :: xs))
    with (x +:+ String sep (String.concat (String sep EmptyString) (y :: xs))).
  rewrite split_app_sep by assumption. f_equal. now apply IH.
Qed.

Lemma trimEnd_nonempty c s : JS.is_whitespace c = false -> JS.trimEnd (String c s) <> EmptyString.
Proof. intros Hc. simpl. destruct (JS.trimEnd s); [now rewrite Hc|discriminate]. Qed.

Lemma trimEnd_app a b :
  JS.trimEnd b <> EmptyString -> JS.trimEnd (a +:+ b) = a +:+ JS.trimEnd b.
Proof.
  intros Hb. induction a as [|c a IH]; [reflexivity|].
  simpl. rewrite IH. destruct (a +:+ JS.trimEnd b) eqn:E.
  - exfalso. destruct a; [apply Hb; exact E|discriminate E].
  - now rewrite <- E.
Qed.

Lemma trimEnd_snoc s c :
  JS.is_whitespace c = false ->
  JS.trimEnd (s +:+ String c EmptyString) = s +:+ String c EmptyString.
Proof.
  intros Hc. rewrite trimEnd_app; simpl; now rewrite Hc.
Qed.

Lemma length_snoc_dquote s :
  String.length (s +:+ JS.dquote) = S (String.length s).
Proof. induction s; simpl; [reflexivity|now rewrite IHs]. Qed.

Lemma get_snoc_dquote s :
  String.get (String.length s) (s +:+ JS.dquote) = Some (ascii_of_nat 34).
Proof. induction s; simpl; [reflexivity|assumption]. Qed.

Lemma substring_snoc_dquote s :
  String.substring 0 (String.length s) (s +:+ JS.dquote) = s.
Proof. induction s; simpl; [reflexivity|now rewrite IHs]. Qed.

Lemma drop_last_dquote_snoc s :
  JS.drop_last_dquote (s +:+ JS.dquote) = s.
Proof.
  unfold JS.drop_last_dquote. rewrite length_snoc_dquote, get_snoc_dquote.
  rewrite bool_decide_eq_true_2 by reflexivity. apply substring_snoc_dquote.
Qed.

Lemma quoted_cell_reads_back f :
  JS.strip_quotes (JS.trim (JS.dquote +:+ f +:+ JS.dquote)) = f.
Proof.
  unfold JS.trim. change (JS.dquote +:+ f +:+ JS.dquote)
    with (String (ascii_of_nat 34) (f +:+ JS.dquote)).
  cbn [JS.trimStart]. change (JS.is_whitespace (ascii_of_nat 34)) with false. cbv iota.
  change (String (ascii_of_nat 34) (f +:+ JS.dquote))
    with ((String (ascii_of_nat 34) f) +:+ String (ascii_of_nat 34) EmptyString).
  rewrite trimEnd_snoc by reflexivity.
  unfold JS.strip_quotes. simpl String.append. simpl Ascii.eqb. cbv iota.
  apply drop_last_dquote_snoc.
Qed.

(** What the export writes for the fields of a line, the import cuts back
    into the same cells, provided no field holds a comma. *)
Lemma cells_of_csv_line (fields : list string) :
  fields <> [] ->
  Forall (fun f => has_char JS.comma f = false) fields ->
  cells (csv_line fields) = fields.
Proof.
  intros Hne Hall. unfold cells, csv_line.
  change "," with (String JS.comma EmptyString).
  rewrite split_join.
  - rewrite map_map. rewrite <- (map_id fields) at 2. apply map_ext.
    intros f. apply quoted_cell_reads_back.
  - destruct fields; [congruence|discriminate].
  - apply Forall_map. eapply Forall_impl; [exact Hall|]. cbn. intros f Hf.
    rewrite !has_char_app, Hf. reflexivity.
Qed.

Lemma trimStart_keeps c s :
  JS.is_whitespace c = false -> JS.trimStart (String c s) = String c s.
Proof.
  intros H.
  change (JS.trimStart (String c s))
    with (if JS.is_whitespace c then JS.trimStart s else String c s).
  now rewrite H.
Qed.

Lemma trimEnd_cons c s :
  JS.trimEnd s <> EmptyString -> JS.trimEnd (String c s) = String c (JS.trimEnd s).
Proof. intros H. simpl. destruct (JS.trimEnd s); [congruence|reflexivity]. Qed.

Lemma split_cons sep s : exists line lines, JS.split sep s = line :: lines.
Proof.
  induction s as [|c s (line & lines & IH)]; simpl; [eauto|].
  destruct (Ascii.eqb c sep); [eauto|]. rewrite IH. eauto.
Qed.

Lemma csv_line_starts f fs :
  exists rest, csv_line (f :: fs) = String (ascii_of_nat 34) rest.
Proof. unfold csv_line, JS.join. destruct fs; simpl; eauto. Qed.

Lemma exported_header_line :
  exists rest, csv_line headers = String (ascii_of_nat 34) rest
               /\ has_char JS.newline (csv_line headers) = false.
Proof. eexists. split; vm_compute; reflexivity. Qed.

Lemma exported_header_names :
  map JS.trim (JS.split JS.comma (csv_line headers))
  = map (fun h => JS.dquote +:+ h +:+ JS.dquote) headers.
Proof. vm_compute. reflexivity. Qed.

(** The lines of an export of at least one license, as the import cuts
    them: the header line, then at least one line. *)
Lemma exported_lines l rest :
  exists line lines,
    JS.split JS.newline (JS.trim (csvContent (l :: rest)))
    = csv_line headers :: line :: lines.
Proof.
  rewrite csvContent_lines. cbn [map].
  destruct (csv_line_starts (ToString (Str (License.product_name l.1)))
              (map ToString (tl (csvData l)))) as [first Hfirst].
  change (csv_line (map ToString (csvData l)))
    with (csv_line (ToString (Str (License.product_name l.1))
                    :: map ToString (tl (csvData l)))).
  rewrite Hfirst.
  assert (Hshape : exists body,
            JS.join (String JS.newline EmptyString)
              (csv_line headers :: String (ascii_of_nat 34) first
               :: map (fun r => csv_line (map ToString (csvData r))) rest)
            = csv_line headers +:+ String JS.newline (String (ascii_of_nat 34) body)).
  { unfold JS.join.
    destruct (map (fun r => csv_line (map ToString (csvData r))) rest);
      simpl String.concat; eauto. }
  destruct Hshape as [body ->].
  destruct exported_header_line as (hrest & Hh & Hnl).
  pose proof (trimEnd_nonempty (ascii_of_nat 34) body eq_refl) as Hq.
  generalize dependent (csv_line headers). intros header -> Hnl.
  unfold JS.trim.
  change (String (ascii_of_nat 34) hrest
          +:+ String JS.newline (String (ascii_of_nat 34) body))
    with (String (ascii_of_nat 34)
            (hrest +:+ String JS.newline (String (ascii_of_nat 34) body))) at 1.
  rewrite trimStart_keeps by reflexivity.
  change (String (ascii_of_nat 34)
            (hrest +:+ String JS.newline (String (ascii_of_nat 34) body)))
    with (String (ascii_of_nat 34) hrest
          +:+ String JS.newline (String (ascii_of_nat 34) body)).
  rewrite trimEnd_app by (rewrite trimEnd_cons by assumption; discriminate).
  rewrite trimEnd_cons by assumption.
  rewrite split_app_sep by assumption.
  destruct (split_cons JS.newline (JS.trimEnd (String (ascii_of_nat 34) body)))
    as (line & lines & ->).
  eauto.
Qed.

Lemma has_char_join c sep xs :
  has_char c sep = false ->
  Forall (fun x => has_char c x = false) xs ->
  has_char c (JS.join sep xs) = false.
Proof.
  intros Hsep. unfold JS.join. induction xs as [|x xs IH]; [reflexivity|].
  intros Hall. apply Forall_cons in Hall as [Hx Hxs].
  destruct xs as [|y xs]; [exact Hx|].
  change (String.concat sep (x :: y :: xs))
    with (x +:+ sep +:+ String.concat sep (y :: xs)).
  rewrite !has_char_app, Hx, Hsep. now apply IH.
Qed.

Lemma csv_line_one_line fields :
  Forall (fun f => has_char JS.newline f = false) fields ->
  has_char JS.newline (csv_line fields) = false.
Proof.
  intros Hall. unfold csv_line. apply has_char_join; [reflexivity|].
  apply Forall_map. eapply Forall_impl; [exact Hall|]. cbn. intros f Hf.
  rewrite !has_char_app, Hf. reflexivity.
Qed.

Lemma append_snoc_assoc a b c :
  a +:+ b +:+ String c EmptyString = (a +:+ b) +:+ String c EmptyString.
Proof.
  induction a as [|x a IH]; [reflexivity|].
  change (String x (a +:+ b +:+ String c EmptyString)
          = String x ((a +:+ b) +:+ String c EmptyString)).
  now rewrite IH.
Qed.

Lemma join_ends c sep xs :
  xs <> [] ->
  Forall (fun x => exists s, x = s +:+ String c EmptyString) xs ->
  exists s, JS.join sep xs = s +:+ String c EmptyString.
Proof.
  unfold JS.join. induction xs as [|x xs IH]; [congruence|]. intros _ Hall.
  apply Forall_cons in Hall as [Hx Hxs].
  destruct xs as [|y xs]; [exact Hx|].
  destruct IH as [s Hs]; [discriminate|exact Hxs|].
  change (String.concat sep (x :: y :: xs))
    with (x +:+ sep +:+ String.concat sep (y :: xs)).
  rewrite Hs. exists (x +:+ sep +:+ s). now rewrite <- !append_snoc_assoc.
Qed.

Lemma csv_line_ends fields :
  fields <> [] -> exists s, csv_line fields = s +:+ JS.dquote.
Proof.
  intros Hne. unfold csv_line. apply join_ends.
  - destruct fields; [congruence|discriminate].
  - apply Forall_map, Forall_forall. intros f _. cbv beta.
    exists (JS.dquote +:+ f). apply append_snoc_assoc.
Qed.

Lemma join_starts sep c s xs :
  exists rest, JS.join sep (String c s :: xs) = String c rest.
Proof. unfold JS.join. destruct xs; simpl; eauto. Qed.

(** A text between two double quotes has no blanks to trim. *)
Lemma trim_quoted s a b :
  s = String (ascii_of_nat 34) a -> s = b +:+ JS.dquote -> JS.trim s = s.
Proof.
  intros Ha Hb. unfold JS.trim. rewrite Ha at 1.
  rewrite trimStart_keeps by reflexivity. rewrite <- Ha, Hb.
  now apply trimEnd_snoc.
Qed.

Lemma csvData_fields r : map ToString (csvData r) <> [].
Proof. discriminate. Qed.

(** The lines of an export whose fields hold no line break, as the import
    cuts them: the header line, then one line for each license. *)
Lemma exported_plain_lines (licenses : list row) :
  Forall (fun r => Forall (fun f => has_char JS.newline f = false)
                          (map ToString (csvData r))) licenses ->
  JS.split JS.newline (JS.trim (csvContent licenses))
  = csv_line headers :: map (fun r => csv_line (map ToString (csvData r))) licenses.
Proof.
  intros Hplain. rewrite csvContent_lines.
  set (lines := csv_line headers
                :: map (fun r => csv_line (map ToString (csvData r))) licenses).
  assert (Hstart : exists a,
            JS.join (String JS.newline EmptyString) lines
            = String (ascii_of_nat 34) a).
  { subst lines. destruct exported_header_line as (hrest & -> & _).
    apply join_starts. }
  assert (Hend : exists b,
            JS.join (String JS.newline EmptyString) lines = b +:+ JS.dquote).
  { apply join_ends; [discriminate|]. subst lines. constructor.
    - apply csv_line_ends. discriminate.
    - apply Forall_map, Forall_forall. intros r _. cbv beta.
      apply csv_line_ends, csvData_fields. }
  destruct Hstart as [a Ha], Hend as [b Hb].
  rewrite (trim_quoted _ a b Ha Hb).
  apply split_join; [discriminate|]. subst lines. constructor.
  - destruct exported_header_line as (hrest & _ & Hnl). exact Hnl.
  - apply Forall_map. eapply Forall_impl; [exact Hplain|]. cbv beta.
    intros r Hr. now apply csv_line_one_line.
Qed.

Lemma quoted_headers_NoDup :
  NoDup (map (fun h => JS.dquote +:+ h +:+ JS.dquote) headers).
Proof. apply (bool_decide_unpack _). vm_compute. reflexivity. Qed.

(** X14: A file written by the export and read by the import gives one row
    for each exported license, in the same order, provided no exported
    field holds a comma or a line break.  The keys of the row are the
    header cells with their double quotes, and under the cell of a column
    the row has the text the export wrote for that field of the license:
    double quotes and blanks inside a field come back as they were. *)
Theorem exported_cells_read_back now (licenses : list row) k r :
  Forall (fun r => Forall (fun f => has_char JS.comma f = false
                                   /\ has_char JS.newline f = false)
                          (map ToString (csvData r))) licenses ->
  licenses !! k = Some r ->
  let text := file_content (exportToCSV now licenses) in
  length (parseCSV text) = length licenses
  /\ exists row,
       parseCSV text !! k = Some row
       /\ dom row = list_to_set (map (fun h => JS.dquote +:+ h +:+ JS.dquote) headers)
       /\ forall i h f,
            headers !! i = Some h -> csvData r !! i = Some f ->
            row !! (JS.dquote +:+ h +:+ JS.dquote) = Some (ToString f).
Proof.
  intros Hplain Hk text.
  assert (Hlines : JS.split JS.newline (JS.trim text)
                   = csv_line headers
                     :: map (fun r => csv_line (map ToString (csvData r))) licenses).
  { subst text. cbn [exportToCSV file_content]. apply exported_plain_lines.
    eapply Forall_impl; [exact Hplain|]. cbv beta. intros r' Hr'.
    eapply Forall_impl; [exact Hr'|]. cbv beta. tauto. }
  assert (Hnames : header_names text
                   = map (fun h => JS.dquote +:+ h +:+ JS.dquote) headers).
  { unfold header_names. rewrite Hlines. cbn [hd]. apply exported_header_names. }
  assert (Hdata : data_lines text
                  = map (fun r => csv_line (map ToString (csvData r))) licenses).
  { unfold data_lines. now rewrite Hlines. }
  assert (Hcells : cells (csv_line (map ToString (csvData r)))
                   = map ToString (csvData r)).
  { apply cells_of_csv_line; [apply csvData_fields|].
    apply (Forall_lookup_1 _ _ _ _ Hplain) in Hk.
    eapply Forall_impl; [exact Hk|]. cbv beta. tauto. }
  rewrite parseCSV_rows, Hnames, Hdata. split; [now rewrite !length_map|].
  eexists. split; [rewrite !list_lookup_fmap, Hk; reflexivity|].
  destruct (row_of_headers
              (fun i => JS.or_empty (cells (csv_line (map ToString (csvData r))) !! i))
              (map (fun h => JS.dquote +:+ h +:+ JS.dquote) headers))
    as [Hdom Hget].
  cbn zeta in Hdom, Hget. split.
  - rewrite Hdom. f_equal.
  - intros i h f Hh Hf. rewrite (Hget i).
    + rewrite Hcells, list_lookup_fmap, Hf. reflexivity.
    + discriminate.
    + now rewrite list_lookup_fmap, Hh.
    + intros j Hj Hsame.
      assert (Hi : map (fun h => JS.dquote +:+ h +:+ JS.dquote) headers !! i
                   = Some (JS.dquote +:+ h +:+ JS.dquote))
        by now rewrite list_lookup_fmap, Hh.
      pose proof (NoDup_lookup _ _ _ _ quoted_headers_NoDup Hi Hsame). lia.
Qed.

Variable Date_parse : string -> option Z.
Variable DATE_in : string -> option Z.

(** X15: A file written by the export is refused by the import as a whole: the
    header cells keep their double quotes and are none of the column names
    the import looks for, so every line after the header is reported, from
    the product name on, and nothing is inserted. *)
Theorem exported_file_is_refused env now user_id categories locations errors0 db
    (licenses : list row) :
  licenses <> [] ->
  let text := file_content (exportToCSV now licenses) in
  let r := handleImport Date_parse DATE_in env (Some text) (Some user_id)
             categories locations errors0 db in
  db_after r = db
  /\ toast r = None
  /\ errors r = allErrors Date_parse (parseCSV text)
  /\ message 0 "Product name is required" ∈ errors r
  /\ Forall (fun row => row !! "product_name" = None) (parseCSV text).
Proof.
  intros Hne text r.
  destruct licenses as [|l rest]; [congruence|].
  destruct (exported_lines l rest) as (line & lines & Hlines).
  assert (Hnames : header_names text
                   = map (fun h => JS.dquote +:+ h +:+ JS.dquote) headers).
  { unfold header_names. subst text. cbn [exportToCSV file_content].
    rewrite Hlines. cbn [hd]. apply exported_header_names. }
  assert (Hdata : data_lines text = line :: lines).
  { unfold data_lines. subst text. cbn [exportToCSV file_content].
    now rewrite Hlines. }
  assert (Hmissing : Forall (fun row : gmap string string => row !! "product_name" = None)
                            (parseCSV text)).
  { rewrite parseCSV_rows, Hnames. apply Forall_map, Forall_forall.
    intros ln _. cbv beta.
    destruct (row_of_headers (fun i => JS.or_empty (cells ln !! i))
                (map (fun h => JS.dquote +:+ h +:+ JS.dquote) headers)) as [Hdom _].
    cbn zeta in Hdom. apply not_elem_of_dom. rewrite Hdom.
    rewrite elem_of_list_to_set. intros Hin.
    apply list_elem_of_filter in Hin as [_ Hin].
    repeat (apply elem_of_cons in Hin as [Hin|Hin]; [discriminate Hin|]).
    now apply elem_of_nil in Hin. }
  assert (Hmsg : message 0 "Product name is required"
                 ∈ allErrors Date_parse (parseCSV text)).
  { rewrite allErrors_concat. revert Hmissing. rewrite parseCSV_rows, Hdata.
    cbn [map imap concat]. intros Hmissing. apply elem_of_app. left.
    apply Forall_cons in Hmissing as [Hrow _].
    unfold validateRow. cbv zeta. rewrite Hrow. cbn [JS.truthy negb when].
    cbn [app]. left. }
  subst r. unfold handleImport.
  destruct (allErrors Date_parse (parseCSV text)) as [|m ms] eqn:E;
    [now apply elem_of_nil in Hmsg|].
  cbn. repeat split; assumption.
Qed.

End ExportThenImport.

(** ** The dashboard *)

Section DashboardProofs.

Import Dashboard.

Lemma filter_all {A} (P : A -> Prop) `{forall x, Decision (P x)} (l : list A) :
  Forall P l -> filter P l = l.
Proof.
  induction 1 as [|x l Hx _ IH]; [reflexivity|].
  rewrite filter_cons_True by assumption. now rewrite IH.
Qed.

Lemma filter_disjoint_length {A} (P Q : A -> Prop)
    `{forall x, Decision (P x)} `{forall x, Decision (Q x)} (l : list A) :
  (forall x, P x -> Q x -> False) ->
  (length (filter P l) + length (filter Q l) <= length l)%nat.
Proof.
  intros Hdis. induction l as [|x l IH]; [reflexivity|].
  destruct (decide (P x)) as [HP|HP]; destruct (decide (Q x)) as [HQ|HQ].
  - destruct (Hdis x HP HQ).
  - rewrite (filter_cons_True P), (filter_cons_False Q) by assumption. cbn. lia.
  - rewrite (filter_cons_False P), (filter_cons_True Q) by assumption. cbn. lia.
  - rewrite (filter_cons_False P), (filter_cons_False Q) by assumption. cbn. lia.
Qed.

Lemma instant_of_day now :
  now = JS.msPerDay * JS.toISODate now + now mod JS.msPerDay
  /\ 0 <= now mod JS.msPerDay < JS.msPerDay.
Proof.
  unfold JS.toISODate. split.
  - apply Z.div_mod. unfold JS.msPerDay. lia.
  - apply Z.mod_pos_bound. reflexivity.
Qed.

(** X16: The dashboard counts as expired the licenses the table shows as
    expired and, besides, those that expire on the day of [now] as soon as
    midnight UTC has passed, which the table shows as critical. *)
Theorem dashboard_expired_vs_table now license :
  expired now license = true <->
    LicenseTable.status (LicenseTable.getExpiryStatus now (License.expiry_date license))
      = "expired"
    \/ (License.expiry_date license = JS.toISODate now
        /\ now mod JS.msPerDay <> 0).
Proof.
  unfold expired. rewrite Z.ltb_lt.
  rewrite getExpiryStatus_status. cbv zeta.
  unfold LicenseTable.daysUntilExpiry. rewrite ceil_days_calendar.
  destruct (instant_of_day now) as [Hnow Hmod].
  unfold JS.Date_of_DATE.
  set (e := License.expiry_date license) in *. set (t := JS.toISODate now) in *.
  set (D := JS.msPerDay) in *. assert (HD : 0 < D) by reflexivity.
  destruct (Z.ltb_spec (e - t) 0) as [Hlt|Hge].
  - split; [auto|]. intros _. nia.
  - assert (Hnot : (if e - t <=? 7 then "critical"
                    else if e - t <=? 30 then "warning" else "active") <> "expired")
      by (repeat case_match; discriminate).
    split.
    + intros H. right. split; nia.
    + intros [H|[He Hm]]; [congruence|]. nia.
Qed.

(** X17: Upcoming and expired never overlap, so the two counters of the
    dashboard together never exceed the total; a paid license is never
    upcoming; and an unpaid one is upcoming exactly when it has from 1 to 30
    days left, or none at the very instant of midnight UTC. *)
Theorem calculateStats_counts now (licenses : list LicenseTable.row) :
  let s := calculateStats now licenses in
  total s = length licenses
  /\ (count_upcoming s + count_expired s <= total s)%nat
  /\ Forall (fun r : LicenseTable.row =>
               (upcoming now r.1 = true -> expired now r.1 = false)
               /\ (License.payment_status r.1 = true -> upcoming now r.1 = false)
               /\ (License.payment_status r.1 = false ->
                   (upcoming now r.1 = true <->
                    let d := LicenseTable.daysUntilExpiry now (License.expiry_date r.1) in
                    1 <= d <= 30 \/ (d = 0 /\ now mod JS.msPerDay = 0))))
            licenses.
Proof.
  intros s. subst s. cbn [calculateStats total count_upcoming count_expired].
  split; [reflexivity|]. split.
  - apply filter_disjoint_length. intros r. unfold upcoming, expired.
    rewrite !andb_true_iff, Z.leb_le, Z.ltb_lt. lia.
  - apply Forall_forall. intros r _. unfold upcoming, expired, thirtyDaysFromNow.
    split; [|split].
    + rewrite !andb_true_iff, !Z.leb_le, Z.ltb_ge. lia.
    + intros ->. cbn. now rewrite andb_false_r.
    + intros ->. cbn [negb]. rewrite andb_true_r, andb_true_iff, !Z.leb_le.
      cbv zeta. unfold LicenseTable.daysUntilExpiry. rewrite ceil_days_calendar.
      destruct (instant_of_day now) as [Hnow Hmod]. unfold JS.Date_of_DATE.
      set (e := License.expiry_date r.1) in *. set (t := JS.toISODate now) in *.
      set (m := now mod JS.msPerDay) in *.
      change JS.msPerDay with 86400000 in *. lia.
Qed.

(** X18: The filters only ever take rows away, keeping the order; with an
    empty search and the three selectors on "all" every row is shown; and
    with only the renewal selector set on upcoming or expired, the rows
    shown are as many as the number on the card of that name. *)
Theorem filterLicenses_narrows now searchTerm categoryFilter branchFilter renewalFilter
    (licenses : list LicenseTable.row) :
  filterLicenses now searchTerm categoryFilter branchFilter renewalFilter licenses
    `sublist_of` licenses
  /\ filterLicenses now EmptyString "all" "all" "all" licenses = licenses
  /\ length (filterLicenses now EmptyString "all" "all" "upcoming" licenses)
     = count_upcoming (calculateStats now licenses)
  /\ length (filterLicenses now EmptyString "all" "all" "expired" licenses)
     = count_expired (calculateStats now licenses).
Proof.
  split; [|repeat split].
  unfold filterLicenses. cbv zeta.
  set (l1 := match searchTerm with
             | String _ _ => filter (fun r => matches searchTerm r = true) licenses
             | EmptyString => licenses
             end).
  assert (H1 : l1 `sublist_of` licenses)
    by (subst l1; destruct searchTerm; [reflexivity|apply sublist_filter]).
  set (l2 := if bool_decide (categoryFilter <> "all")
             then filter (fun r : LicenseTable.row => License.category r.1 = categoryFilter) l1
             else l1).
  assert (H2 : l2 `sublist_of` licenses).
  { subst l2. case_bool_decide; [|assumption].
    etransitivity; [apply sublist_filter|assumption]. }
  set (l3 := if bool_decide (branchFilter <> "all")
             then filter (fun r : LicenseTable.row => Location.name <$> r.2 = Some branchFilter) l2
             else l2).
  assert (H3 : l3 `sublist_of` licenses).
  { subst l3. case_bool_decide; [|assumption].
    etransitivity; [apply sublist_filter|assumption]. }
  repeat case_bool_decide; try assumption;
    (etransitivity; [apply sublist_filter|assumption]).
Qed.

Lemma includes_paid t :
  JSLib.includes t "paid" = true -> JSLib.includes t "unpaid" = true.
Proof.
  intros H.
  change (JSLib.includes t "unpaid")
    with (String.prefix t "unpaid"
          || (String.prefix t "npaid" || JSLib.includes t "paid")).
  now rewrite H, !orb_true_r.
Qed.

(** X19: A search for "paid", or for any part of that word in any case, shows
    every license, paid or not, since "unpaid" contains it. *)
Theorem search_paid_shows_all now searchTerm (licenses : list LicenseTable.row) :
  JSLib.includes (JS.toLowerCase searchTerm) "paid" = true ->
  filterLicenses now searchTerm "all" "all" "all" licenses = licenses.
Proof.
  intros Hpaid.
  destruct searchTerm as [|c rest]; [reflexivity|].
  change (filterLicenses now (String c rest) "all" "all" "all" licenses)
    with (filter (fun r => matches (String c rest) r = true) licenses).
  apply filter_all, Forall_forall. intros r _. unfold matches. cbv zeta.
  assert (Hword : JSLib.includes (JS.toLowerCase (String c rest))
                    (if License.payment_status r.1 then "paid" else "unpaid") = true)
    by (destruct (License.payment_status r.1); [assumption|now apply includes_paid]).
  rewrite Hword, !orb_true_r. reflexivity.
Qed.

End DashboardProofs.

(** ** The notifications page *)

Section NotificationsProofs.

Import Notifications.

#[local] Instance sooner_first_total : Total sooner_first.
Proof. intros a b. unfold sooner_first. lia. Qed.

(** X20: The page lists exactly the licenses of the user that expire from the
    day of the query to seven days later, soonest first.  Rendered on that
    same day, each listed license has from 0 to 7 days left, so its badge
    is Critical up to 3 days and Warning beyond: the Notice badge and the
    green colour are never shown. *)
Theorem notifications_page_never_notice env user_id shown db render :
  licenses_select_error env = None ->
  JS.toISODate render = JS.toISODate (now env) ->
  let page := (fetchExpiringLicenses env (Some user_id) shown db).1 in
  Sorted sooner_first page
  /\ (forall id l, (id, l) ∈ page <->
        licenses db !! id = Some l
        /\ License.created_by l = user_id
        /\ JS.toISODate (now env) <= License.expiry_date l <= JS.toISODate (now env) + 7)
  /\ Forall (fun r =>
               let days := getDaysUntilExpiry render (License.expiry_date r.2) in
               0 <= days <= 7
               /\ (getUrgencyBadge days = ("destructive", "Critical") <-> days <= 3)
               /\ (getUrgencyBadge days = ("secondary", "Warning") <-> 3 < days)
               /\ daysColour days <> "text-green-600") page.
Proof.
  intros Herr Hday page. subst page. unfold fetchExpiringLicenses. rewrite Herr.
  cbn [fst].
  assert (Hseven : JS.toISODate (now env + 7 * 24 * 60 * 60 * 1000)
                   = JS.toISODate (now env) + 7).
  { unfold JS.toISODate.
    replace (now env + 7 * 24 * 60 * 60 * 1000) with (now env + 7 * JS.msPerDay)
      by (unfold JS.msPerDay; lia).
    apply Z.div_add. unfold JS.msPerDay. lia. }
  assert (Hmem : forall id l,
            (id, l) ∈ merge_sort sooner_first
                        (filter (fun r => listed user_id (now env)
                                            (now env + 7 * 24 * 60 * 60 * 1000) r.2)
                                (map_to_list (licenses db))) <->
            licenses db !! id = Some l
            /\ License.created_by l = user_id
            /\ JS.toISODate (now env) <= License.expiry_date l <= JS.toISODate (now env) + 7).
  { intros id l. rewrite merge_sort_Permutation, list_elem_of_filter, elem_of_map_to_list.
    unfold listed. cbn [snd]. rewrite Hseven. tauto. }
  split; [apply Sorted_merge_sort, _|]. split; [exact Hmem|].
  apply Forall_forall. intros [id l] Hin. apply Hmem in Hin as (_ & _ & Hwin).
  cbn [snd]. cbv zeta. unfold getDaysUntilExpiry. cbv zeta.
  change (1000 * 60 * 60 * 24) with JS.msPerDay.
  rewrite ceil_days_calendar, Hday.
  set (days := License.expiry_date l - JS.toISODate (now env)).
  assert (Hdays : 0 <= days <= 7) by (subst days; lia).
  unfold getUrgencyBadge, daysColour.
  destruct (Z.leb_spec days 3); [|destruct (Z.leb_spec days 7); [|lia]];
    repeat split; intros; first [lia | discriminate | reflexivity].
Qed.

End NotificationsProofs.

(** ** The sweep, further *)

Section SweepFurther.

Import CheckLicenseExpiry Sweep.

Lemma details_from_addresses env today rows : forall outbox,
  map (fun n => [JS.or_empty (email n)]) (details_from env today outbox rows)
  = map (fun r => to (request_of today r)) rows
  /\ map license_id (details_from env today outbox rows) = map fst rows.
Proof.
  induction rows as [|r rows IH]; intros outbox; [split; reflexivity|].
  cbn [details_from map]. destruct (IH (outbox ++ [request_of today r])) as [-> ->].
  split; reflexivity.
Qed.

(** X21: In every run the provider receives one request per reported detail,
    in the same order, and each request goes to the one address of its
    detail; this also holds for the runs that report nothing. *)
Theorem sweep_requests_match_details env db method :
  let response := (handler env db method).1 in
  let outbox := (handler env db method).2 in
  map to outbox = map (fun n => [JS.or_empty (email n)]) (details_of response)
  /\ length outbox = length (details_of response).
Proof.
  intros response outbox. subst response outbox.
  destruct (decide (method = "OPTIONS")) as [->|Hm]; [split; reflexivity|].
  destruct (query_error env) as [e|] eqn:He.
  - rewrite (handler_query_failed _ _ _ _ Hm He). split; reflexivity.
  - rewrite handler_query_ok by assumption. cbv zeta. cbn [fst snd details_of body].
    destruct (details_from_addresses env (now env)
                (filter (due (now env)) (checked env db)) []) as [Haddr _].
    rewrite Haddr, map_map, length_map, details_from_length. split; reflexivity.
Qed.

(** X22: When the query does not fail, the licenses checked but not reported
    are exactly those whose notification email is the empty text: the
    details are as many as the checked licenses with a non-empty email,
    and they carry the ids of these licenses, in order. *)
Theorem sweep_skips_empty_emails env db method :
  method <> "OPTIONS" ->
  query_error env = None ->
  let addressed :=
    filter (fun r : string * License.t =>
              JS.truthy (License.notification_email r.2) = true) (checked env db) in
  map license_id (details_of (handler env db method).1) = map fst addressed
  /\ (length (checked env db)
      = length (details_of (handler env db method).1)
        + length (filter (fun r : string * License.t =>
                            License.notification_email r.2 = Some EmptyString)
                         (checked env db)))%nat.
Proof.
  intros Hm He addressed.
  rewrite handler_query_ok by assumption. cbv zeta. cbn [fst details_of body].
  assert (Hdue : filter (due (now env)) (checked env db) = addressed).
  { subst addressed. unfold checked. rewrite !list_filter_filter.
    apply list_filter_iff. intros r. split; intros [H1 H2]; split; try assumption.
    - now apply (due_of_checked env r H2).
    - now apply (due_of_checked env r H2). }
  destruct (details_from_addresses env (now env)
              (filter (due (now env)) (checked env db)) []) as [_ Hids].
  rewrite Hids, Hdue. split; [reflexivity|].
  rewrite details_from_length. subst addressed.
  assert (Hsplit : forall l : list (string * License.t),
            Forall (fun r => is_Some (License.notification_email r.2)) l ->
            length l
            = (length (filter (fun r : string * License.t =>
                                 JS.truthy (License.notification_email r.2) = true) l)
               + length (filter (fun r : string * License.t =>
                                   License.notification_email r.2 = Some EmptyString) l))%nat).
  { induction 1 as [|r l [a Hr] _ IH]; [reflexivity|].
    destruct a as [|c a].
    - rewrite filter_cons_False by (rewrite Hr; discriminate).
      rewrite (filter_cons_True (fun r : string * License.t =>
                 License.notification_email r.2 = Some EmptyString)) by assumption.
      cbn [length]. lia.
    - rewrite filter_cons_True by (rewrite Hr; reflexivity).
      rewrite (filter_cons_False (fun r : string * License.t =>
                 License.notification_email r.2 = Some EmptyString))
        by (rewrite Hr; discriminate).
      cbn [length]. lia. }
  apply Hsplit. unfold checked. apply Forall_forall. intros r Hin.
  apply list_elem_of_filter in Hin as [(_ & _ & Hsome) _]. exact Hsome.
Qed.

End SweepFurther.

(** ** Adding a license by the form *)

Section AddLicenseProofs.

Import AddLicenseForm.

(** X23: With a signed-in user, a form the button accepts and a store that
    takes the row, the submission adds exactly one license under an unused
    id and moves to the dashboard; the license is Pending and unpaid
    whatever status the form holds, owned by the user, carries the number
    the amount starts with, and has for category text the name of the
    selected category, or the empty text when the list has no such
    category; the other licenses and the payment records stay. *)
Theorem handleSubmit_adds_pending_license env user_id categories formData db :
  isFormValid formData = true ->
  licenses_insert_error env = None ->
  let r := handleSubmit env (Some user_id) categories formData db in
  submit_disabled false formData = false
  /\ r.2 = true
  /\ toast r.1 = Some (mkToast "Success" "License added successfully!" None)
  /\ payment_history (db_after r.1) = payment_history db
  /\ exists id l,
       licenses db !! id = None
       /\ licenses (db_after r.1) = <[id := l]> (licenses db)
       /\ License.status l = Some "Pending"
       /\ License.payment_status l = false
       /\ License.created_by l = user_id
       /\ License.amount l = JS.parseFloat (amount formData)
       /\ License.category l
          = JS.or_empty
              (Category.name <$>
                 List.find (fun cat => bool_decide (Category.id cat = categoryId formData))
                           categories)
       /\ Some (License.start_date l) = JS.toISODate <$> startDate formData
       /\ Some (License.expiry_date l) = JS.toISODate <$> expiryDate formData.
Proof.
  intros Hvalid Hok r. subst r.
  assert (Hdates : is_Some (startDate formData) /\ is_Some (expiryDate formData)).
  { unfold isFormValid in Hvalid. rewrite !andb_true_iff in Hvalid.
    destruct Hvalid as [[_ Hs] He].
    split; [now apply bool_decide_eq_true in Hs|now apply bool_decide_eq_true in He]. }
  destruct Hdates as [[start Hstart] [expiry Hexpiry]].
  unfold submit_disabled. rewrite Hvalid.
  unfold handleSubmit, licenses_insert, payload. rewrite Hok, Hstart, Hexpiry. cbn.
  repeat split.
  eexists _, _. split; [apply fresh_string_fresh|]. repeat split.
Qed.

End AddLicenseProofs.

(** ** New users *)

Section NewUserProofs.

Import NewUser.

(** X24: The trigger succeeds exactly for a user with an email who has neither
    a profile nor settings yet; it then adds one profile, with that email,
    the name of the metadata and the role user, and one row of settings,
    enabled with the offsets 15, 7 and 1, and leaves the rows of all other
    users alone. *)
Theorem handle_new_user_provisions new db :
  (is_Some (handle_new_user new db) <->
     is_Some (user_email new)
     /\ profiles db !! id new = None
     /\ notification_settings db !! id new = None)
  /\ forall db', handle_new_user new db = Some db' ->
       (exists address,
          user_email new = Some address
          /\ profiles db' !! id new
             = Some (mkProfile address (meta_full_name new) "user"))
       /\ notification_settings db' !! id new = Some (true, [15; 7; 1])
       /\ size (profiles db') = S (size (profiles db))
       /\ size (notification_settings db') = S (size (notification_settings db))
       /\ forall other, other <> id new ->
            profiles db' !! other = profiles db !! other
            /\ notification_settings db' !! other = notification_settings db !! other.
Proof.
  unfold handle_new_user.
  destruct (user_email new) as [address|]; cbn;
    [|split; [split; [intros [? ?]; discriminate|intros ([? ?] & _); discriminate]
             |intros ? ?; discriminate]].
  destruct (decide (profiles db !! id new = None)) as [Hp|Hp].
  2: { rewrite (option_guard_False (profiles db !! id new = None)) by assumption. cbn.
       split; [split; [intros [? ?]; discriminate|intros (_ & ? & _); contradiction]
              |intros ? ?; discriminate]. }
  rewrite (option_guard_True (profiles db !! id new = None)) by assumption. cbn.
  destruct (decide (notification_settings db !! id new = None)) as [Hs|Hs].
  2: { rewrite (option_guard_False (notification_settings db !! id new = None))
         by assumption. cbn.
       split; [split; [intros [? ?]; discriminate|intros (_ & _ & ?); contradiction]
              |intros ? ?; discriminate]. }
  rewrite (option_guard_True (notification_settings db !! id new = None))
    by assumption. cbn.
  split; [split; [intros _; repeat split; eauto|intros _; eauto]|].
  intros db' [= <-]. cbn.
  split; [exists address; split; [reflexivity|apply lookup_insert_eq]|].
  split; [apply lookup_insert_eq|].
  split; [now apply map_size_insert_None|].
  split; [now apply map_size_insert_None|].
  intros other Hother. split; apply lookup_insert_ne; congruence.
Qed.

End NewUserProofs.

(** ** The further statements on the sample data *)

Lemma updateStatus_unknown_license_witness :
  db_after (PaymentStatusBadge.updateStatus Samples.browser "lic-9" (Some "Pending")
              "Paid" Samples.db) = Samples.db
  /\ exists d,
       toast (PaymentStatusBadge.updateStatus Samples.browser "lic-9" (Some "Pending")
                "Paid" Samples.db) = Some (mkToast "Success" d None).
Proof.
  destruct (updateStatus_unknown_license Samples.browser "lic-9" (Some "Pending")
              "Paid" Samples.db) as (Hdb & _ & Htoast).
  - vm_compute. reflexivity.
  - split; [exact Hdb|exact (Htoast eq_refl)].
Defined.

Lemma updateStatus_amount_unreadable_witness :
  payment_history
    (db_after (PaymentStatusBadge.updateStatus MoreSamples.browser_no_select "lic-1"
                 (Some "Pending") "Paid" Samples.db)) = []
  /\ toast (PaymentStatusBadge.updateStatus MoreSamples.browser_no_select "lic-1"
              (Some "Pending") "Paid" Samples.db)
     = Some (mkToast "Success" "Status updated and payment history created!" None).
Proof.
  destruct (updateStatus_amount_unreadable MoreSamples.browser_no_select "lic-1"
              Samples.db Samples.office "timeout") as (_ & Hhist & _ & Htoast).
  - vm_compute. reflexivity.
  - discriminate.
  - reflexivity.
  - reflexivity.
  - split; [exact Hhist|exact Htoast].
Defined.

Lemma updateStatus_keeps_references_witness :
  references_hold
    (db_after (PaymentStatusBadge.updateStatus Samples.browser "lic-1" (Some "Pending")
                 "Paid" Samples.db)).
Proof.
  destruct (updateStatus_keeps_references Samples.browser "lic-1" (Some "Pending")
              "Paid" Samples.db) as (_ & _ & _ & Href).
  apply Href. intros p Hin. vm_compute in Hin. now apply elem_of_nil in Hin.
Defined.

Lemma addPayment_update_unchecked_witness :
  licenses (db_after (PaymentHistoryDialog.addPayment MoreSamples.browser_no_update
                        (Some "user-1") "lic-1" Samples.payment_form Samples.db))
  = licenses Samples.db.
Proof.
  destruct (addPayment_update_unchecked MoreSamples.browser_no_update "user-1" "lic-1"
              Samples.payment_form (20067 * JS.msPerDay) Samples.db "timeout")
    as (Hsame & _).
  - discriminate.
  - reflexivity.
  - reflexivity.
  - reflexivity.
  - exact Hsame.
Defined.

Lemma addPayment_success_iff_recorded_witness :
  length (payment_history
            (db_after (PaymentHistoryDialog.addPayment MoreSamples.browser_no_update
                         (Some "user-1") "lic-1" Samples.payment_form Samples.db)))
  = 1%nat.
Proof.
  destruct (addPayment_success_iff_recorded MoreSamples.browser_no_update (Some "user-1")
              "lic-1" Samples.payment_form Samples.db) as ([Hrec _] & _).
  apply Hrec. eexists. vm_compute. reflexivity.
Defined.

Lemma addPayment_shows_in_own_history_witness :
  (PaymentList.fetchPaymentHistory (Some "user-1") None "lic-2" []
     (db_after (PaymentHistoryDialog.addPayment Samples.browser (Some "user-1") "lic-1"
                  Samples.payment_form Samples.db))).1
  = (PaymentList.fetchPaymentHistory (Some "user-1") None "lic-2" [] Samples.db).1.
Proof.
  destruct (addPayment_shows_in_own_history Samples.browser "user-1" "lic-1"
              Samples.payment_form (20067 * JS.msPerDay) Samples.db [] "lic-2")
    as (_ & _ & _ & Hother).
  - discriminate.
  - reflexivity.
  - reflexivity.
  - discriminate.
  - exact Hother.
Defined.

Lemma handleDelete_cascades_witness :
  licenses (db_after (LicenseDelete.handleDelete None (Some "lic-1") Samples.db)) !! "lic-1"
  = None.
Proof.
  destruct (handleDelete_cascades None "lic-1" Samples.db) as (Hok & _).
  exact (proj1 (Hok eq_refl)).
Defined.

Lemma parseCSV_cells_witness :
  length (ImportLicenseDialog.parseCSV Samples.csv_valid)
  = length (data_lines Samples.csv_valid).
Proof.
  refine (proj1 (parseCSV_cells Samples.csv_valid 0 MoreSamples.valid_line _)).
  vm_compute. reflexivity.
Defined.

Lemma validateRow_accepts_witness :
  ImportLicenseDialog.validateRow Samples.Date_parse
    (default ∅ (ImportLicenseDialog.parseCSV Samples.csv_valid !! 0%nat)) 0 = [].
Proof.
  apply (proj2 (validateRow_accepts Samples.Date_parse _ 0)).
  split; [repeat constructor; vm_compute; reflexivity|].
  split; [vm_compute; reflexivity|].
  split; [vm_compute; discriminate|].
  split; [vm_compute; discriminate|].
  vm_compute. discriminate.
Defined.

Lemma validateRow_amount_prefix_witness :
  ImportLicenseDialog.message 0 "Valid amount is required"
  ∉ ImportLicenseDialog.validateRow Samples.Date_parse {[ "amount" := "12abc" ]} 0.
Proof.
  apply (validateRow_amount_prefix Samples.Date_parse {[ "amount" := "12abc" ]} 0
           "1"%char "2abc" 1).
  - vm_compute. reflexivity.
  - reflexivity.
Defined.

Lemma handleImport_keeps_existing_witness :
  licenses Samples.db
  ⊆ licenses
      (ImportLicenseDialog.db_after
         (ImportLicenseDialog.handleImport Samples.Date_parse Samples.date_only
            Samples.browser (Some Samples.csv_valid) (Some "user-1") [] [] []
            Samples.db)).
Proof.
  exact (proj1 (handleImport_keeps_existing Samples.Date_parse Samples.date_only
                  Samples.browser (Some Samples.csv_valid) (Some "user-1") [] [] []
                  Samples.db)).
Defined.

Lemma handleImport_no_data_rows_witness :
  ImportLicenseDialog.parseCSV Samples.csv_header = [].
Proof.
  refine (proj1 (handleImport_no_data_rows Samples.Date_parse Samples.date_only
                   Samples.browser Samples.csv_header "user-1" [] [] [] Samples.db _ _)).
  - vm_compute. reflexivity.
  - reflexivity.
Defined.

Lemma exported_cells_read_back_witness :
  length (ImportLicenseDialog.parseCSV
            (LicenseTable.file_content
               (LicenseTable.exportToCSV 0 MoreSamples.plain_rows))) = 2%nat
  /\ exists row,
       ImportLicenseDialog.parseCSV
         (LicenseTable.file_content
            (LicenseTable.exportToCSV 0 MoreSamples.plain_rows)) !! 1%nat = Some row
       /\ row !! (JS.dquote +:+ "Amount" +:+ JS.dquote) = Some "14.99"
       /\ row !! (JS.dquote +:+ "Branch Name" +:+ JS.dquote) = Some "India".
Proof.
  assert (Hplain :
            Forall (fun r =>
                      Forall (fun f => has_char JS.comma f = false
                                       /\ has_char JS.newline f = false)
                             (map LicenseTable.ToString (LicenseTable.csvData r)))
                   MoreSamples.plain_rows).
  { unfold MoreSamples.plain_rows.
    repeat (constructor; [vm_compute; repeat constructor|]). constructor. }
  destruct (exported_cells_read_back 0 MoreSamples.plain_rows 1
              (MoreSamples.expiring_today, Some (Location.mk "loc-1" "India"))
              Hplain eq_refl) as (Hlen & row & Hrow & _ & Hget).
  split; [exact Hlen|]. exists row. split; [exact Hrow|]. split.
  - exact (Hget 4%nat "Amount" (LicenseTable.Num (JS.Finite 1499 (-2)))
             eq_refl eq_refl).
  - exact (Hget 3%nat "Branch Name" (LicenseTable.Str "India") eq_refl eq_refl).
Defined.

(** Cells with blanks and double quotes inside are cut back as written. *)
Example cells_of_csv_line_sample :
  cells (csv_line MoreSamples.fields) = MoreSamples.fields.
Proof. vm_compute. reflexivity. Qed.

(** A line break in the notes of the one exported license is read as the
    end of a line: the import sees two rows, and the first has no notes
    beyond the break. *)
Example export_line_break_sample :
  let rows := ImportLicenseDialog.parseCSV
                (LicenseTable.file_content
                   (LicenseTable.exportToCSV 0 [(MoreSamples.noted, None)])) in
  length rows = 2%nat
  /\ (rows !! 0%nat) ≫= (fun row => row !! (JS.dquote +:+ "Notes" +:+ JS.dquote))
     = Some "team plan".
Proof. vm_compute. split; reflexivity. Qed.

(** A comma inside a field moves the cells after it one column on. *)
Example export_comma_sample :
  let rows := ImportLicenseDialog.parseCSV
                (LicenseTable.file_content
                   (LicenseTable.exportToCSV 0 [(Samples.office, None)])) in
  (rows !! 0%nat) ≫= (fun row => row !! (JS.dquote +:+ "Notes" +:+ JS.dquote))
  = Some "Office".
Proof. vm_compute. reflexivity. Qed.

Lemma exported_file_is_refused_witness :
  ImportLicenseDialog.db_after
    (ImportLicenseDialog.handleImport Samples.Date_parse Samples.date_only
       Samples.browser
       (Some (LicenseTable.file_content
                (LicenseTable.exportToCSV (now Samples.browser) MoreSamples.rows)))
       (Some "user-1") [] [] [] Samples.db)
  = Samples.db.
Proof.
  refine (proj1 (exported_file_is_refused Samples.Date_parse Samples.date_only
                   Samples.browser (now Samples.browser) "user-1" [] [] []
                   Samples.db MoreSamples.rows _)).
  discriminate.
Defined.

Lemma dashboard_expired_vs_table_witness :
  Dashboard.expired (now Samples.browser) MoreSamples.expiring_today = true.
Proof.
  apply (proj2 (dashboard_expired_vs_table (now Samples.browser)
                  MoreSamples.expiring_today)).
  right. split; [vm_compute; reflexivity|vm_compute; discriminate].
Defined.

Lemma calculateStats_counts_witness :
  (Dashboard.count_upcoming (Dashboard.calculateStats (now Samples.browser) MoreSamples.rows)
   + Dashboard.count_expired (Dashboard.calculateStats (now Samples.browser) MoreSamples.rows)
   <= Dashboard.total (Dashboard.calculateStats (now Samples.browser) MoreSamples.rows))%nat.
Proof.
  exact (proj1 (proj2 (calculateStats_counts (now Samples.browser) MoreSamples.rows))).
Defined.

Lemma search_paid_shows_all_witness :
  Dashboard.filterLicenses (now Samples.browser) "Paid" "all" "all" "all" MoreSamples.rows
  = MoreSamples.rows.
Proof.
  apply search_paid_shows_all. vm_compute. reflexivity.
Defined.

Lemma notifications_page_never_notice_witness :
  Sorted Notifications.sooner_first
    (Notifications.fetchExpiringLicenses Samples.browser (Some "user-1") [] Samples.db).1.
Proof.
  exact (proj1 (notifications_page_never_notice Samples.browser "user-1" [] Samples.db
                  (now Samples.browser) eq_refl eq_refl)).
Defined.

Lemma sweep_skips_empty_emails_witness :
  map CheckLicenseExpiry.license_id
    (Sweep.details_of (CheckLicenseExpiry.handler Samples.edge Samples.db "POST").1)
  = map fst
      (filter (fun r : string * License.t =>
                 JS.truthy (License.notification_email r.2) = true)
              (Sweep.checked Samples.edge Samples.db)).
Proof.
  refine (proj1 (sweep_skips_empty_emails Samples.edge Samples.db "POST" _ eq_refl)).
  discriminate.
Defined.

Lemma handleSubmit_adds_pending_license_witness :
  toast (AddLicenseForm.handleSubmit Samples.browser (Some "user-1")
           MoreSamples.categories MoreSamples.form Samples.db).1
  = Some (mkToast "Success" "License added successfully!" None).
Proof.
  destruct (handleSubmit_adds_pending_license Samples.browser "user-1"
              MoreSamples.categories MoreSamples.form Samples.db)
    as (_ & _ & Htoast & _).
  - reflexivity.
  - reflexivity.
  - exact Htoast.
Defined.

Lemma handle_new_user_provisions_witness :
  is_Some (NewUser.handle_new_user MoreSamples.new_user (NewUser.mkAccounts ∅ ∅)).
Proof.
  apply (proj2 (proj1 (handle_new_user_provisions MoreSamples.new_user
                         (NewUser.mkAccounts ∅ ∅)))).
  split; [eexists; reflexivity|split; reflexivity].
Defined.

(** The samples, evaluated. *)

Example dashboard_samples :
  Dashboard.calculateStats (now Samples.browser) MoreSamples.rows
  = Dashboard.mkStats 3 1 1 (JS.Finite 41299 (-2))
  /\ map (fun r : LicenseTable.row =>
            LicenseTable.status
              (LicenseTable.getExpiryStatus (now Samples.browser) (License.expiry_date r.1)))
         MoreSamples.rows
     = ["warning"; "critical"; "critical"]
  /\ map (fun r : LicenseTable.row => License.product_name r.1)
         (Dashboard.filterLicenses (now Samples.browser) "unpaid" "all" "all" "all"
            MoreSamples.rows)
     = ["Microsoft Office"; "Zoom"].
Proof. vm_compute. repeat split. Qed.

Example handleSubmit_sample :
  let r := AddLicenseForm.handleSubmit Samples.browser (Some "user-1")
             MoreSamples.categories MoreSamples.form Samples.db in
  (License.category <$> licenses (db_after r.1) !! "license") = Some "Design"
  /\ (License.status <$> licenses (db_after r.1) !! "license") = Some (Some "Pending")
  /\ (License.amount <$> licenses (db_after r.1) !! "license") = Some (JS.Finite 455 (-1))
  /\ (License.expiry_date <$> licenses (db_after r.1) !! "license") = Some 20432.
Proof. vm_compute. repeat split. Qed.
